(** * BookHaven: catalog aggregation, filter/sort/paginate pipeline and
      review lifecycle, embedded from the TypeScript sources.

    Conventions of the embedding.
    - JavaScript strings are Rocq [string]s; [===] on strings is [String.eqb].
    - JavaScript numbers that the program only ever uses as integers
      (ratings, years, lengths, page numbers, epoch milliseconds) are [Z] or
      [nat]; the quotient [sum / length] and everything computed from it is
      an exact rational [Q] (the IEEE rounding of the quotient is not
      modelled).
    - React state is an explicit record; a handler is a function from state
      to state, and an [await] splits a handler into the part before the
      store call and the continuation that receives the store's answer. *)

From Stdlib Require Import List String Ascii ZArith QArith Qround Lia Lqa Bool.
From Stdlib Require Import Sorted Permutation DecimalString DecimalPos DecimalN.
Import ListNotations.

Local Open Scope Z_scope.

(** ** JavaScript built-ins used by the pages *)
Module JS.

(** [Array.prototype.reduce((sum, x) => sum + f x, 0)] over integers. *)
Definition reduce_sum {A : Type} (f : A -> Z) (l : list A) : Z :=
  fold_left (fun sum r => sum + f r) l 0.

(** [a / b] on numbers, for integral [a] and [b]. *)
Definition div (a b : Z) : Q := (inject_Z a / inject_Z b)%Q.

(** [String.prototype.toLowerCase], on the ASCII letters. *)
Definition lower_ascii (c : ascii) : ascii :=
  let n := nat_of_ascii c in
  if ((65 <=? n)%nat && (n <=? 90)%nat)%bool then ascii_of_nat (n + 32) else c.

Fixpoint toLowerCase (s : string) : string :=
  match s with
  | EmptyString => EmptyString
  | String c s' => String (lower_ascii c) (toLowerCase s')
  end.

(** [s.startsWith(t)] *)
Fixpoint startsWith (s t : string) {struct t} : bool :=
  match t, s with
  | EmptyString, _ => true
  | String _ _, EmptyString => false
  | String b t', String a s' => (Ascii.eqb a b && startsWith s' t')%bool
  end.

(** [s.includes(t)]: [t] occurs in [s] at some position. *)
Fixpoint includes (s t : string) : bool :=
  (startsWith s t ||
   match s with
   | EmptyString => false
   | String _ s' => includes s' t
   end)%bool.

(** White space removed by [String.prototype.trim] (ASCII part): tab, line
    feed, vertical tab, form feed, carriage return, space. *)
Definition isWhiteSpace (c : ascii) : bool :=
  let n := nat_of_ascii c in
  ((9 <=? n)%nat && (n <=? 13)%nat || (n =? 32)%nat)%bool.

Fixpoint trimStart (s : string) : string :=
  match s with
  | EmptyString => EmptyString
  | String c s' => if isWhiteSpace c then trimStart s' else s
  end.

Fixpoint trimEnd (s : string) : string :=
  match s with
  | EmptyString => EmptyString
  | String c s' =>
      match trimEnd s' with
      | EmptyString => if isWhiteSpace c then EmptyString else String c EmptyString
      | r => String c r
      end
  end.

Definition trim (s : string) : string := trimEnd (trimStart s).

(** Truthiness of a string: [if (s)] holds for the non-empty strings. *)
Definition truthy (s : string) : bool :=
  match s with EmptyString => false | _ => true end.

(** [Math.ceil(a / b)] for integral [a], [b]. *)
Definition ceil_div (a b : Z) : Z := Qceiling (div a b).

(** [Array.prototype.slice(start, end)]: negative indices count from the
    end, both are clamped to the length, and an empty array is returned when
    the clamped start is not before the clamped end. *)
Definition clampIndex (len i : Z) : Z :=
  if i <? 0 then Z.max (len + i) 0 else Z.min i len.

Definition slice {A : Type} (l : list A) (start end_ : Z) : list A :=
  let len := Z.of_nat (List.length l) in
  let k := clampIndex len start in
  let final := clampIndex len end_ in
  firstn (Z.to_nat (Z.max (final - k) 0)) (skipn (Z.to_nat k) l).

(** [Array.prototype.sort(compareFn)].  The comparator returns a number;
    [compareFn a b > 0] asks for [b] before [a], anything else keeps [a]
    first.  The sort is stable (ECMAScript 2019), which for a consistent
    comparator fixes the result; it is embedded as a stable insertion sort. *)
Section Sort.
Context {A : Type} (compareFn : A -> A -> Q).

Fixpoint insert (x : A) (l : list A) : list A :=
  match l with
  | [] => [x]
  | y :: l' =>
      if Qle_bool (compareFn x y) 0 then x :: y :: l' else y :: insert x l'
  end.

Fixpoint sort (l : list A) : list A :=
  match l with
  | [] => []
  | x :: l' => insert x (sort l')
  end.
End Sort.

(** [Number.prototype.toFixed(1)]: let [n] be the integer for which
    [n / 10 - x] is closest to zero, the larger one on a tie; print [n] with
    one digit after the point; a negative [x] is printed as ["-"] followed by
    the rendering of [-x]. *)
Definition nearestTenth (x : Q) : Z := Qfloor (x * 10 + (1 # 2))%Q.

Definition digits (n : Z) : string :=
  NilZero.string_of_uint (N.to_uint (Z.to_N n)).

Definition renderTenths (n : Z) : string :=
  String.append (digits (n / 10)) (String.append "." (digits (n mod 10))).

Definition toFixed1 (x : Q) : string :=
  if Qle_bool 0 x then renderTenths (nearestTenth x)
  else String.append "-" (renderTenths (nearestTenth (- x)%Q)).

(** [Number.prototype.toString()] of an integer. *)
Definition toString (n : Z) : string :=
  if n <? 0 then String.append "-" (digits (- n)) else digits n.

(** [parseInt(s)]: leading white space and a sign are skipped, the longest
    run of decimal digits is read, and [NaN] (here [None]) is returned when
    there is none.  Radix prefixes are not modelled: the page only stores
    the strings of its rating selector and of [toString]. *)
Definition digitValue (c : ascii) : option Z :=
  let n := nat_of_ascii c in
  if ((48 <=? n)%nat && (n <=? 57)%nat)%bool
  then Some (Z.of_nat (n - 48)) else None.

Fixpoint parseDigits (s : string) (acc : option Z) : option Z :=
  match s with
  | EmptyString => acc
  | String c s' =>
      match digitValue c with
      | Some d =>
          parseDigits s'
            (Some (10 * match acc with Some a => a | None => 0 end + d))
      | None => acc
      end
  end.

Definition parseInt (s : string) : option Z :=
  match trimStart s with
  | String "-"%char s' => option_map Z.opp (parseDigits s' None)
  | String "+"%char s' => parseDigits s' None
  | s' => parseDigits s' None
  end.

(** [[...new Set(l)]]: a [Set] keeps the first occurrence of each value,
    in insertion order, and the spread lists it in that order. *)
Definition unique (l : list string) : list string :=
  fold_left (fun seen x =>
               if existsb (String.eqb x) seen then seen else seen ++ [x])
            l [].

End JS.

(** ** The platform: what the browser supplies and the sources only call *)

(** [new Date(s).getTime()] on the store's timestamps, and
    [a.localeCompare(b)] in the viewer's locale. *)
Class Platform := {
  getTime : string -> Z;
  localeCompare : string -> string -> Z
}.

(** ECMAScript requires [localeCompare] to be a consistent comparator: a
    total preorder on strings. *)
Definition consistent (cmp : string -> string -> Z) : Prop :=
  (forall a b, 0 < cmp a b -> cmp b a <= 0) /\
  (forall a b c, cmp a b <= 0 -> cmp b c <= 0 -> cmp a c <= 0).

(** ** Rows of the data store (supabase/migrations) *)

(** [public.books] *)
Record Book := mkBook {
  id : string;
  title : string;
  author : string;
  description : string;
  genre : string;
  published_year : Z;
  added_by : option string;
  created_at : string;
  updated_at : string
}.

(** What [select("book_id, rating")] returns from [public.reviews]. *)
Record ReviewRating := mkReviewRating {
  book_id : string;
  rating : Z
}.

(** [{ ...book, averageRating, reviewCount }]: the row's own fields are
    carried over unchanged as the [book] component and two fields are
    added. *)
Record BookWithRatings := mkBookWithRatings {
  book :> Book;
  averageRating : Q;
  reviewCount : nat
}.

(** ** Aggregation (Index.tsx [fetchBooks], Profile.tsx [fetchProfileData]) *)
Module Aggregation.

Definition bookReviews (reviewsData : list ReviewRating) (book : Book)
  : list ReviewRating :=
  filter (fun r => String.eqb (book_id r) (id book)) reviewsData.

Definition avgRating (bookReviews : list ReviewRating) : Q :=
  if (0 <? List.length bookReviews)%nat
  then JS.div (JS.reduce_sum rating bookReviews)
              (Z.of_nat (List.length bookReviews))
  else 0%Q.

Definition booksWithRatings (booksData : list Book)
    (reviewsData : list ReviewRating) : list BookWithRatings :=
  map (fun book =>
         let bookReviews := bookReviews reviewsData book in
         {| book := book;
            averageRating := avgRating bookReviews;
            reviewCount := List.length bookReviews |})
      booksData.

End Aggregation.

(** ** The catalog page (Index.tsx) *)
Module Index.

Definition ITEMS_PER_PAGE : Z := 5.

(** The [useState] cells of the component that the pipeline reads or
    writes. *)
Record State := mkState {
  books : list BookWithRatings;
  filteredBooks : list BookWithRatings;
  searchTerm : string;
  selectedGenre : string;
  sortBy : string;
  currentPage : Z
}.

Section Pipeline.
Context {P : Platform}.

(** The search predicate of [filterAndSortBooks]. *)
Definition matchesSearch (searchTerm : string) (book : BookWithRatings) : bool :=
  (JS.includes (JS.toLowerCase (title book)) (JS.toLowerCase searchTerm) ||
   JS.includes (JS.toLowerCase (author book)) (JS.toLowerCase searchTerm))%bool.

(** The comparator handed to [filtered.sort]: a [switch] on [sortBy] whose
    [default] branch is the ordering by creation time. *)
Definition compareFn (sortBy : string) (a b : BookWithRatings) : Q :=
  if String.eqb sortBy "rating" then (averageRating b - averageRating a)%Q
  else if String.eqb sortBy "year" then
    inject_Z (published_year b - published_year a)
  else if String.eqb sortBy "title" then
    inject_Z (localeCompare (title a) (title b))
  else inject_Z (getTime (created_at b) - getTime (created_at a)).

(** The value [filterAndSortBooks] passes to [setFilteredBooks]. *)
Definition filtered (books : list BookWithRatings)
    (searchTerm selectedGenre sortBy : string) : list BookWithRatings :=
  let filtered := books in
  let filtered :=
    if JS.truthy searchTerm
    then filter (matchesSearch searchTerm) filtered else filtered in
  let filtered :=
    if negb (String.eqb selectedGenre "all")
    then filter (fun book : BookWithRatings =>
                   String.eqb (genre book) selectedGenre) filtered
    else filtered in
  JS.sort (compareFn sortBy) filtered.

Definition filterAndSortBooks (st : State) : State :=
  {| books := books st;
     filteredBooks :=
       filtered (books st) (searchTerm st) (selectedGenre st) (sortBy st);
     searchTerm := searchTerm st;
     selectedGenre := selectedGenre st;
     sortBy := sortBy st;
     currentPage := 1 |}.

(** The state setters.  [useEffect(filterAndSortBooks, [books, searchTerm,
    selectedGenre, sortBy])] runs after a render in which one of the four
    dependencies changed; setting a cell to the value it holds re-renders
    nothing. *)
Definition setSearchTerm (v : string) (st : State) : State :=
  if String.eqb v (searchTerm st) then st
  else filterAndSortBooks
         {| books := books st; filteredBooks := filteredBooks st;
            searchTerm := v; selectedGenre := selectedGenre st;
            sortBy := sortBy st; currentPage := currentPage st |}.

Definition setSelectedGenre (v : string) (st : State) : State :=
  if String.eqb v (selectedGenre st) then st
  else filterAndSortBooks
         {| books := books st; filteredBooks := filteredBooks st;
            searchTerm := searchTerm st; selectedGenre := v;
            sortBy := sortBy st; currentPage := currentPage st |}.

Definition setSortBy (v : string) (st : State) : State :=
  if String.eqb v (sortBy st) then st
  else filterAndSortBooks
         {| books := books st; filteredBooks := filteredBooks st;
            searchTerm := searchTerm st; selectedGenre := selectedGenre st;
            sortBy := v; currentPage := currentPage st |}.

(** [setBooks] always receives a freshly built array, so the effect runs. *)
Definition setBooks (v : list BookWithRatings) (st : State) : State :=
  filterAndSortBooks
    {| books := v; filteredBooks := filteredBooks st;
       searchTerm := searchTerm st; selectedGenre := selectedGenre st;
       sortBy := sortBy st; currentPage := currentPage st |}.
End Pipeline.

(** [currentPage] is not a dependency of the effect. *)
Definition setCurrentPage (v : Z) (st : State) : State :=
  {| books := books st; filteredBooks := filteredBooks st;
     searchTerm := searchTerm st; selectedGenre := selectedGenre st;
     sortBy := sortBy st; currentPage := v |}.

(** Values derived on every render. *)
Definition totalPages (st : State) : Z :=
  JS.ceil_div (Z.of_nat (List.length (filteredBooks st))) ITEMS_PER_PAGE.

Definition paginatedBooks (st : State) : list BookWithRatings :=
  JS.slice (filteredBooks st)
           ((currentPage st - 1) * ITEMS_PER_PAGE)
           (currentPage st * ITEMS_PER_PAGE).

(** [[...new Set(books.map((book) => book.genre))]] *)
Definition genres (st : State) : list string :=
  JS.unique (map (fun book : BookWithRatings => genre book) (books st)).

(** [Array.from({ length: totalPages }, (_, i) => i + 1)]: the numbered
    page buttons. *)
Definition pageNumbers (st : State) : list Z :=
  map (fun i => Z.of_nat i + 1) (seq 0 (Z.to_nat (totalPages st))).

(** The component with its [isLoading] cell. *)
Record Page := mkPage {
  view : State;
  isLoading : bool
}.

(** The cells as [useState] initialises them. *)
Definition initial : Page :=
  {| view := mkState [] [] "" "all" "recent" 1; isLoading := true |}.

(** The pagination bar is rendered when the page is not loading, the
    current slice is not empty and [totalPages > 1]. *)
Definition paginationShown (p : Page) : bool :=
  (negb (isLoading p) &&
   (0 <? List.length (paginatedBooks (view p)))%nat &&
   (1 <? totalPages (view p)))%bool.

(** One event of the catalog page: typing in the search box, choosing a
    genre or a sort key among the options rendered, pressing Previous, Next
    or a numbered page button that is rendered and enabled, or the answer
    of [fetchBooks]. *)
Inductive ui_step {P : Platform} : Page -> Page -> Prop :=
| ev_search p v :
    ui_step p {| view := setSearchTerm v (view p); isLoading := isLoading p |}
| ev_genre p v :
    In v ("all"%string :: genres (view p)) ->
    ui_step p {| view := setSelectedGenre v (view p); isLoading := isLoading p |}
| ev_sort p v :
    In v ["recent"; "rating"; "year"; "title"]%string ->
    ui_step p {| view := setSortBy v (view p); isLoading := isLoading p |}
| ev_previous p :
    paginationShown p = true -> currentPage (view p) <> 1 ->
    ui_step p {| view := setCurrentPage (currentPage (view p) - 1) (view p);
                 isLoading := isLoading p |}
| ev_next p :
    paginationShown p = true -> currentPage (view p) <> totalPages (view p) ->
    ui_step p {| view := setCurrentPage (currentPage (view p) + 1) (view p);
                 isLoading := isLoading p |}
| ev_page p page :
    paginationShown p = true -> In page (pageNumbers (view p)) ->
    ui_step p {| view := setCurrentPage page (view p); isLoading := isLoading p |}
| ev_fetched p booksData reviewsData :
    ui_step p {| view := setBooks (Aggregation.booksWithRatings booksData reviewsData)
                                  (view p);
                 isLoading := false |}
| ev_fetchFailed p :
    ui_step p {| view := view p; isLoading := false |}.

Inductive ui_run {P : Platform} : Page -> Page -> Prop :=
| run_nil p : ui_run p p
| run_step p1 p2 p3 : ui_run p1 p2 -> ui_step p2 p3 -> ui_run p1 p3.

End Index.

(** ** The book card (BookCard.tsx) *)
Module BookCard.

(** The text next to the star:
    [averageRating > 0 ? averageRating.toFixed(1) : "No ratings"]. *)
Definition ratingText (averageRating : Q) : string :=
  if negb (Qle_bool averageRating 0) then JS.toFixed1 averageRating
  else "No ratings"%string.

(** The card as the catalog page renders it for an aggregated book. *)
Definition render (b : BookWithRatings) : string := ratingText (averageRating b).

End BookCard.

(** ** Review rows and the store's policies (supabase/migrations) *)

(** [public.reviews], as [select("*, profiles(name)")] returns it. *)
Module Review.
Record t := mk {
  id : string;
  book_id : string;
  user_id : string;
  rating : Z;
  review_text : string;
  created_at : string;
  updated_at : string;
  profiles_name : option string
}.
End Review.

(** What a store call resolves to: [{ error: null }] or [{ error }]. *)
Inductive StoreResult :=
| ok
| error (message : string).

Module Store.

Record DB := mkDB {
  books : list Book;
  reviews : list Review.t
}.

(** [CREATE POLICY "Users can delete their own reviews" ON public.reviews
    FOR DELETE USING (auth.uid() = user_id)].  [auth.uid()] is NULL for an
    anonymous caller, and a NULL comparison does not pass. *)
Definition delete_policy (auth_uid : option string) (r : Review.t) : bool :=
  match auth_uid with
  | Some uid => String.eqb uid (Review.user_id r)
  | None => false
  end.

(** [from("reviews").delete().eq("id", reviewId)] under row-level
    security: the rows that match the filter and pass the policy's [USING]
    expression are deleted; rows that do not pass it are skipped silently
    and no error is reported. *)
Definition delete_review (auth_uid : option string) (reviewId : string)
    (db : DB) : DB * StoreResult :=
  ({| books := books db;
      reviews :=
        filter (fun r => negb (String.eqb (Review.id r) reviewId &&
                               delete_policy auth_uid r))
               (reviews db) |},
   ok).

(** [from("books").select("*, profiles(name)").eq("id", id).single()];
    policy ["Anyone can view books"], [USING (true)]. *)
Definition select_book (bookId : string) (db : DB) : option Book :=
  find (fun b => String.eqb (id b) bookId) (books db).

(** [from("reviews").select("*, profiles(name)").eq("book_id", id)
    .order("created_at", { ascending: false })]; policy
    ["Anyone can view reviews"], [USING (true)]. *)
Definition select_reviews {P : Platform} (id : string) (db : DB)
  : list Review.t :=
  JS.sort (fun a b : Review.t =>
             inject_Z (getTime (Review.created_at b) -
                       getTime (Review.created_at a)))
          (filter (fun r => String.eqb (Review.book_id r) id) (reviews db)).

(** [CREATE POLICY "Users can delete their own books" ON public.books FOR
    DELETE USING (auth.uid() = added_by)]; the seeded books have
    [added_by] NULL, and NULL equals nothing. *)
Definition delete_book_policy (auth_uid : option string) (b : Book) : bool :=
  match auth_uid, added_by b with
  | Some uid, Some owner => String.eqb uid owner
  | _, _ => false
  end.

(** [from("books").delete().eq("id", id)]: the rows that match and pass the
    policy are deleted, and [book_id ... REFERENCES public.books(id) ON
    DELETE CASCADE] deletes the reviews of each deleted book with it
    (referential actions are not subject to row-level policies). *)
Definition delete_book (auth_uid : option string) (bookId : string) (db : DB)
  : DB * StoreResult :=
  let deleted := fun b : Book =>
    (String.eqb (id b) bookId && delete_book_policy auth_uid b)%bool in
  ({| books := filter (fun b => negb (deleted b)) (books db);
      reviews :=
        filter (fun r =>
                  negb (existsb (fun b => (deleted b &&
                                           String.eqb (Review.book_id r) (id b))%bool)
                                (books db)))
               (reviews db) |},
   ok).

(** [from("books").select("*").order("created_at", { ascending: false })] *)
Definition select_books {P : Platform} (db : DB) : list Book :=
  JS.sort (fun a b : Book =>
             inject_Z (getTime (created_at b) - getTime (created_at a)))
          (books db).

(** [from("reviews").select("book_id, rating")] *)
Definition select_ratings (db : DB) : list ReviewRating :=
  map (fun r => mkReviewRating (Review.book_id r) (Review.rating r))
      (reviews db).

(** [CREATE POLICY "Authenticated users can create reviews" ... FOR INSERT
    WITH CHECK (auth.uid() IS NOT NULL AND auth.uid() = user_id)] *)
Definition insert_review_policy (auth_uid : option string) (user_id : string)
  : bool :=
  match auth_uid with
  | Some uid => String.eqb uid user_id
  | None => false
  end.

(** [CREATE POLICY "Authenticated users can create books" ... FOR INSERT
    WITH CHECK (auth.uid() IS NOT NULL AND auth.uid() = added_by)] *)
Definition insert_book_policy (auth_uid : option string)
    (added_by : option string) : bool :=
  match auth_uid, added_by with
  | Some uid, Some owner => String.eqb uid owner
  | _, _ => false
  end.

(** [rating INTEGER NOT NULL CHECK (rating >= 1 AND rating <= 5)] *)
Definition rating_check (rating : Z) : bool :=
  ((1 <=? rating) && (rating <=? 5))%bool.

End Store.

(** ** The book page and its review form (BookDetails) *)
Module BookDetails.

(** *** [reviewSchema] *)

(** One issue of a [ZodError]; the two on the text carry the messages
    "Review must be at least 10 characters" and
    "Review must be less than 1000 characters". *)
Inductive ZodIssue :=
| rating_not_a_number
| rating_too_small
| rating_too_big
| reviewText_too_small
| reviewText_too_big.

(** A [ZodError] holds at least one issue; [errors[0]] is [first]. *)
Record ZodError := mkZodError {
  first : ZodIssue;
  others : list ZodIssue
}.

Record Validated := mkValidated {
  validated_rating : Z;
  validated_reviewText : string
}.

(** [rating: z.number().min(1).max(5)] *)
Definition rating_issues (rating : option Z) : list ZodIssue :=
  match rating with
  | None => [rating_not_a_number]
  | Some n =>
      (if n <? 1 then [rating_too_small] else []) ++
      (if 5 <? n then [rating_too_big] else [])
  end.

(** [reviewText: z.string().trim().min(10, ...).max(1000, ...)]: the checks
    run on the trimmed string. *)
Definition reviewText_issues (reviewText : string) : list ZodIssue :=
  let trimmed := JS.trim reviewText in
  (if (String.length trimmed <? 10)%nat then [reviewText_too_small] else []) ++
  (if (1000 <? String.length trimmed)%nat then [reviewText_too_big] else []).

(** [reviewSchema.parse({ rating, reviewText })]: the parsed value, or the
    thrown [ZodError]. *)
Definition reviewSchema_parse (rating : option Z) (reviewText : string)
  : Validated + ZodError :=
  match rating_issues rating ++ reviewText_issues reviewText, rating with
  | [], Some n =>
      inl {| validated_rating := n;
             validated_reviewText := JS.trim reviewText |}
  | [], None => inr {| first := rating_not_a_number; others := [] |}
  | i :: rest, _ => inr {| first := i; others := rest |}
  end.

(** *** Component state *)

(** [user] holds the session user's [id], [None] being [null]. *)
Record State := mkState {
  user : option string;
  book : option Book;
  reviews : list Review.t;
  rating : string;
  reviewText : string;
  editingReview : option string;
  isLoading : bool;
  isSubmitting : bool
}.

Definition setUser (v : option string) (st : State) : State :=
  mkState v (book st) (reviews st) (rating st) (reviewText st)
          (editingReview st) (isLoading st) (isSubmitting st).
Definition setBook (v : option Book) (st : State) : State :=
  mkState (user st) v (reviews st) (rating st) (reviewText st)
          (editingReview st) (isLoading st) (isSubmitting st).
Definition setReviews (v : list Review.t) (st : State) : State :=
  mkState (user st) (book st) v (rating st) (reviewText st)
          (editingReview st) (isLoading st) (isSubmitting st).
Definition setRating (v : string) (st : State) : State :=
  mkState (user st) (book st) (reviews st) v (reviewText st)
          (editingReview st) (isLoading st) (isSubmitting st).
Definition setReviewText (v : string) (st : State) : State :=
  mkState (user st) (book st) (reviews st) (rating st) v
          (editingReview st) (isLoading st) (isSubmitting st).
Definition setEditingReview (v : option string) (st : State) : State :=
  mkState (user st) (book st) (reviews st) (rating st) (reviewText st)
          v (isLoading st) (isSubmitting st).
Definition setIsLoading (v : bool) (st : State) : State :=
  mkState (user st) (book st) (reviews st) (rating st) (reviewText st)
          (editingReview st) v (isSubmitting st).
Definition setIsSubmitting (v : bool) (st : State) : State :=
  mkState (user st) (book st) (reviews st) (rating st) (reviewText st)
          (editingReview st) (isLoading st) v.

(** *** What a handler does besides setting state *)

(** The four shapes of [toast({ title, description, variant })] on the
    page: title "Authentication Required"; title "Validation Error" with
    the first issue's message; title "Success"; title "Error". *)
Inductive Toast :=
| Toast_AuthenticationRequired
| Toast_ValidationError (issue : ZodIssue)
| Toast_Success (description : string)
| Toast_Error (description : string).

Inductive Effect :=
| ShowToast (t : Toast)
| Navigate (path : string)
| ScrollToTop
| Refetch.

(** The mutating store calls the page awaits. *)
Inductive Mutation :=
| UpdateReview (id : string) (rating : Z) (review_text : string)
| InsertReview (book_id user_id : string) (rating : Z) (review_text : string)
| DeleteReview (id : string)
| DeleteBook (id : string).

(** A handler run up to its [await] (or to its end): the state it leaves,
    what it showed, and the store call it is suspended on, if any. *)
Record Outcome := mkOutcome {
  state : State;
  effects : list Effect;
  awaits : option Mutation
}.

(** [fetchBookDetails()] up to its first [await]. *)
Definition fetchBookDetails (st : State) : State := setIsLoading true st.

(** *** Handlers *)

Definition handleSubmitReview (id : string) (st : State) : Outcome :=
  match user st with
  | None =>
      {| state := st;
         effects := [ShowToast Toast_AuthenticationRequired; Navigate "/auth"];
         awaits := None |}
  | Some user_id =>
      let st := setIsSubmitting true st in
      match reviewSchema_parse (JS.parseInt (rating st)) (reviewText st) with
      | inr zodError =>
          {| state := setIsSubmitting false st;
             effects := [ShowToast (Toast_ValidationError (first zodError))];
             awaits := None |}
      | inl validated =>
          let call :=
            match editingReview st with
            | Some editing =>
                if JS.truthy editing
                then UpdateReview editing (validated_rating validated)
                                  (validated_reviewText validated)
                else InsertReview id user_id (validated_rating validated)
                                  (validated_reviewText validated)
            | None =>
                InsertReview id user_id (validated_rating validated)
                             (validated_reviewText validated)
            end in
          {| state := st; effects := []; awaits := Some call |}
      end
  end.

(** The rest of [handleSubmitReview], once the awaited call [call] has
    resolved to [res]; its setters act on the state of that moment. *)
Definition handleSubmitReview_resume (call : Mutation) (res : StoreResult)
    (st : State) : State * list Effect :=
  match res with
  | error message =>
      (setIsSubmitting false st,
       [ShowToast (Toast_Error (if JS.truthy message then message
                                else "Failed to submit review"))])
  | ok =>
      let '(st, description) :=
        match call with
        | UpdateReview _ _ _ =>
            (setEditingReview None st, "Review updated successfully"%string)
        | _ => (st, "Review submitted successfully"%string)
        end in
      (setIsSubmitting false
         (fetchBookDetails (setReviewText "" (setRating "5" st))),
       [ShowToast (Toast_Success description); Refetch])
  end.

Definition handleEditReview (review : Review.t) (st : State) : Outcome :=
  {| state :=
       setReviewText (Review.review_text review)
         (setRating (JS.toString (Review.rating review))
            (setEditingReview (Some (Review.id review)) st));
     effects := [ScrollToTop];
     awaits := None |}.

Definition handleDeleteReview (reviewId : string) (st : State) : Outcome :=
  {| state := st; effects := []; awaits := Some (DeleteReview reviewId) |}.

Definition handleDeleteReview_resume (res : StoreResult) (st : State)
  : State * list Effect :=
  match res with
  | error _ => (st, [ShowToast (Toast_Error "Failed to delete review")])
  | ok =>
      (fetchBookDetails st,
       [ShowToast (Toast_Success "Review deleted successfully"); Refetch])
  end.

(** [confirmed] is the answer of [window.confirm]. *)
Definition handleDeleteBook (confirmed : bool) (id : string) (st : State)
  : Outcome :=
  if negb confirmed then {| state := st; effects := []; awaits := None |}
  else {| state := st; effects := []; awaits := Some (DeleteBook id) |}.

Definition handleDeleteBook_resume (res : StoreResult) (st : State)
  : State * list Effect :=
  match res with
  | error _ => (st, [ShowToast (Toast_Error "Failed to delete book")])
  | ok => (st, [ShowToast (Toast_Success "Book deleted successfully");
                Navigate "/"])
  end.

(** The Cancel button's [onClick]. *)
Definition cancelEdit (st : State) : State :=
  setReviewText "" (setRating "5" (setEditingReview None st)).

(** The continuation that a resolved store call wakes up. *)
Definition resume (call : Mutation) (res : StoreResult) (st : State)
  : State * list Effect :=
  match call with
  | UpdateReview _ _ _ | InsertReview _ _ _ _ =>
      handleSubmitReview_resume call res st
  | DeleteReview _ => handleDeleteReview_resume res st
  | DeleteBook _ => handleDeleteBook_resume res st
  end.

(** The end of [fetchBookDetails]: both selects answered, or one failed. *)
Definition fetchBookDetails_resume
    (fetched : option (Book * option (list Review.t))) (st : State)
  : State * list Effect :=
  match fetched with
  | Some (bookData, Some reviewsData) =>
      (setIsLoading false (setReviews reviewsData (setBook (Some bookData) st)),
       [])
  | Some (bookData, None) =>
      (setIsLoading false (setBook (Some bookData) st),
       [ShowToast (Toast_Error "Failed to fetch book details")])
  | None =>
      (setIsLoading false st,
       [ShowToast (Toast_Error "Failed to fetch book details")])
  end.

(** *** Derived values and what the page renders *)

(** The header's rating text. *)
Definition averageRating (st : State) : string :=
  if (0 <? List.length (reviews st))%nat
  then JS.toFixed1 (JS.div (JS.reduce_sum Review.rating (reviews st))
                           (Z.of_nat (List.length (reviews st))))
  else "0.0"%string.

(** The page shows "Loading..." or "Book not found" instead of its
    controls while loading or without a book. *)
Definition interactive (st : State) : bool :=
  (negb (isLoading st) && match book st with Some _ => true | None => false end)%bool.

(** [{user && (<Card> ... review form ... </Card>)}] *)
Definition reviewFormShown (st : State) : bool :=
  match user st with Some _ => true | None => false end.

(** [disabled={isSubmitting || !reviewText.trim()}] *)
Definition submitDisabled (st : State) : bool :=
  (isSubmitting st || negb (JS.truthy (JS.trim (reviewText st))))%bool.

(** [{editingReview && (<Button> Cancel </Button>)}] *)
Definition cancelShown (st : State) : bool :=
  match editingReview st with Some e => JS.truthy e | None => false end.

(** [{user && user.id === review.user_id && (edit and delete buttons)}] *)
Definition reviewControlsShown (st : State) (review : Review.t) : bool :=
  match user st with
  | Some user_id => String.eqb user_id (Review.user_id review)
  | None => false
  end.

(** [{user && user.id === book.added_by && (edit and delete buttons)}] *)
Definition bookControlsShown (st : State) : bool :=
  match user st, book st with
  | Some user_id, Some b =>
      match added_by b with
      | Some owner => String.eqb user_id owner
      | None => false
      end
  | _, _ => false
  end.

(** *** The page in use: state plus the store calls in flight *)
Record Session := mkSession {
  page : State;
  inflight : list Mutation
}.

Definition initial (st : State) : Session :=
  {| page := st; inflight := [] |}.

Definition dispatch (o : Outcome) (s : Session) : Session :=
  {| page := state o;
     inflight := inflight s ++
                 match awaits o with Some call => [call] | None => [] end |}.

(** One event of the page for the book [id]: a control the render offers is
    used, a store call in flight resolves, the refetch answers, or the
    identity provider reports a change. *)
Inductive ui_step (id : string) : Session -> Session -> Prop :=
| ev_changeText s v :
    interactive (page s) = true -> reviewFormShown (page s) = true ->
    ui_step id s {| page := setReviewText v (page s); inflight := inflight s |}
| ev_changeRating s v :
    interactive (page s) = true -> reviewFormShown (page s) = true ->
    In v ["5"; "4"; "3"; "2"; "1"]%string ->
    ui_step id s {| page := setRating v (page s); inflight := inflight s |}
| ev_clickSubmit s :
    interactive (page s) = true -> reviewFormShown (page s) = true ->
    submitDisabled (page s) = false ->
    ui_step id s (dispatch (handleSubmitReview id (page s)) s)
| ev_clickCancel s :
    interactive (page s) = true -> reviewFormShown (page s) = true ->
    cancelShown (page s) = true ->
    ui_step id s {| page := cancelEdit (page s); inflight := inflight s |}
| ev_clickEdit s review :
    interactive (page s) = true -> In review (reviews (page s)) ->
    reviewControlsShown (page s) review = true ->
    ui_step id s (dispatch (handleEditReview review (page s)) s)
| ev_clickDelete s review :
    interactive (page s) = true -> In review (reviews (page s)) ->
    reviewControlsShown (page s) review = true ->
    ui_step id s (dispatch (handleDeleteReview (Review.id review) (page s)) s)
| ev_clickDeleteBook s confirmed :
    interactive (page s) = true -> bookControlsShown (page s) = true ->
    ui_step id s (dispatch (handleDeleteBook confirmed id (page s)) s)
| ev_resolve s before call after res :
    inflight s = before ++ call :: after ->
    ui_step id s {| page := fst (resume call res (page s));
                    inflight := before ++ after |}
| ev_fetched s fetched :
    ui_step id s {| page := fst (fetchBookDetails_resume fetched (page s));
                    inflight := inflight s |}
| ev_authChange s v :
    ui_step id s {| page := setUser v (page s); inflight := inflight s |}.

(** Runs of the page. *)
Inductive ui_run (id : string) : Session -> Session -> Prop :=
| run_nil s : ui_run id s s
| run_step s1 s2 s3 : ui_run id s1 s2 -> ui_step id s2 s3 -> ui_run id s1 s3.

(** The review submissions among the calls in flight. *)
Definition isSubmit (call : Mutation) : bool :=
  match call with
  | UpdateReview _ _ _ | InsertReview _ _ _ _ => true
  | _ => false
  end.

Definition submitsInFlight (s : Session) : nat :=
  List.length (filter isSubmit (inflight s)).

(** *** Deleting a review against the store *)

(** [handleDeleteReview reviewId] run to completion against the store
    [db], the store seeing the session's identity: the handler's call, the
    store's answer, the continuation, and the refetch it asks for. *)
Definition deleteReview {P : Platform} (id reviewId : string)
    (st : State) (db : Store.DB) : State * Store.DB * list Effect :=
  match awaits (handleDeleteReview reviewId st) with
  | Some (DeleteReview rid) =>
      let '(db', res) := Store.delete_review (user st) rid db in
      let '(st', shown) := handleDeleteReview_resume res st in
      let st'' :=
        if existsb (fun e => match e with Refetch => true | _ => false end) shown
        then
          fst (fetchBookDetails_resume
                 (option_map (fun b => (b, Some (Store.select_reviews id db')))
                             (Store.select_book id db'))
                 st')
        else st' in
      (st'', db', shown)
  | _ => (st, db, [])
  end.

End BookDetails.

(** ** The add/edit book form (AddBook) *)
Module AddBook.

(** *** [bookSchema] *)

(** The issues of the schema, in the order of its fields; the messages are
    "Title is required", "Title must be less than 200 characters", and so
    on, "Invalid year" and "Year cannot be in the future". *)
Inductive ZodIssue :=
| title_too_small
| title_too_big
| author_too_small
| author_too_big
| description_too_small
| description_too_big
| genre_too_small
| genre_too_big
| publishedYear_not_a_number
| publishedYear_too_small
| publishedYear_too_big.

Record ZodError := mkZodError {
  first : ZodIssue;
  others : list ZodIssue
}.

Record Validated := mkValidated {
  validated_title : string;
  validated_author : string;
  validated_description : string;
  validated_genre : string;
  validated_publishedYear : Z
}.

(** [z.string().trim().min(min, ...).max(max, ...)] *)
Definition string_issues (too_small too_big : ZodIssue) (min max : nat)
    (s : string) : list ZodIssue :=
  let trimmed := JS.trim s in
  (if (String.length trimmed <? min)%nat then [too_small] else []) ++
  (if (max <? String.length trimmed)%nat then [too_big] else []).

(** [z.number().min(1000, ...).max(new Date().getFullYear() + 1, ...)];
    [currentYear] is [new Date().getFullYear()]. *)
Definition publishedYear_issues (currentYear : Z) (publishedYear : option Z)
  : list ZodIssue :=
  match publishedYear with
  | None => [publishedYear_not_a_number]
  | Some y =>
      (if y <? 1000 then [publishedYear_too_small] else []) ++
      (if currentYear + 1 <? y then [publishedYear_too_big] else [])
  end.

Definition issues (currentYear : Z) (title author description genre : string)
    (publishedYear : option Z) : list ZodIssue :=
  string_issues title_too_small title_too_big 1 200 title ++
  string_issues author_too_small author_too_big 1 100 author ++
  string_issues description_too_small description_too_big 10 2000 description ++
  string_issues genre_too_small genre_too_big 1 50 genre ++
  publishedYear_issues currentYear publishedYear.

(** [bookSchema.parse({ title, author, description, genre, publishedYear })] *)
Definition bookSchema_parse (currentYear : Z)
    (title author description genre : string) (publishedYear : option Z)
  : Validated + ZodError :=
  match issues currentYear title author description genre publishedYear,
        publishedYear with
  | [], Some y =>
      inl {| validated_title := JS.trim title;
             validated_author := JS.trim author;
             validated_description := JS.trim description;
             validated_genre := JS.trim genre;
             validated_publishedYear := y |}
  | [], None => inr {| first := publishedYear_not_a_number; others := [] |}
  | i :: rest, _ => inr {| first := i; others := rest |}
  end.

(** *** Component state *)
Record State := mkState {
  user : option string;
  title : string;
  author : string;
  description : string;
  genre : string;
  publishedYear : string;
  isLoading : bool;
  isLoadingBook : bool
}.

Definition setIsLoading (v : bool) (st : State) : State :=
  mkState (user st) (title st) (author st) (description st) (genre st)
          (publishedYear st) v (isLoadingBook st).
Definition setIsLoadingBook (v : bool) (st : State) : State :=
  mkState (user st) (title st) (author st) (description st) (genre st)
          (publishedYear st) (isLoading st) v.

(** The five setters [fetchBook] calls on the row it received. *)
Definition setFields (t a d g y : string) (st : State) : State :=
  mkState (user st) t a d g y (isLoading st) (isLoadingBook st).

(** Toasts of the form: titles "Validation Error", "Success", "Error" and
    "Access Denied". *)
Inductive Toast :=
| Toast_ValidationError (issue : ZodIssue)
| Toast_Success (description : string)
| Toast_Error (description : string)
| Toast_AccessDenied.

Inductive Effect :=
| ShowToast (t : Toast)
| Navigate (path : string).

Inductive Mutation :=
| UpdateBook (id title author description genre : string) (published_year : Z)
| InsertBook (title author description genre : string) (published_year : Z)
             (added_by : string).

Record Outcome := mkOutcome {
  state : State;
  effects : list Effect;
  awaits : option Mutation
}.

(** [handleSubmit], up to its [await]; [id] is the route parameter, absent
    on the add page. *)
Definition handleSubmit (id : option string) (currentYear : Z) (st : State)
  : Outcome :=
  match user st with
  | None => {| state := st; effects := []; awaits := None |}
  | Some user_id =>
      let st := setIsLoading true st in
      match bookSchema_parse currentYear (title st) (author st)
                             (description st) (genre st)
                             (JS.parseInt (publishedYear st)) with
      | inr zodError =>
          {| state := setIsLoading false st;
             effects := [ShowToast (Toast_ValidationError (first zodError))];
             awaits := None |}
      | inl validated =>
          let call :=
            match id with
            | Some bookId =>
                if JS.truthy bookId
                then UpdateBook bookId (validated_title validated)
                       (validated_author validated)
                       (validated_description validated)
                       (validated_genre validated)
                       (validated_publishedYear validated)
                else InsertBook (validated_title validated)
                       (validated_author validated)
                       (validated_description validated)
                       (validated_genre validated)
                       (validated_publishedYear validated) user_id
            | None =>
                InsertBook (validated_title validated)
                  (validated_author validated)
                  (validated_description validated)
                  (validated_genre validated)
                  (validated_publishedYear validated) user_id
            end in
          {| state := st; effects := []; awaits := Some call |}
      end
  end.

(** The rest of [handleSubmit]; [newId] is [data.id] of the inserted row. *)
Definition handleSubmit_resume (call : Mutation) (res : StoreResult)
    (newId : string) (st : State) : State * list Effect :=
  match res with
  | error message =>
      (setIsLoading false st,
       [ShowToast (Toast_Error (if JS.truthy message then message
                                else "Failed to save book"))])
  | ok =>
      match call with
      | UpdateBook bookId _ _ _ _ _ =>
          (setIsLoading false st,
           [ShowToast (Toast_Success "Book updated successfully");
            Navigate (String.append "/book/" bookId)])
      | InsertBook _ _ _ _ _ _ =>
          (setIsLoading false st,
           [ShowToast (Toast_Success "Book added successfully");
            Navigate (String.append "/book/" newId)])
      end
  end.

(** [data.added_by !== user?.id] is false exactly when both are the same
    string. *)
Definition ownedBy (user : option string) (added_by : option string) : bool :=
  match added_by, user with
  | Some owner, Some user_id => String.eqb owner user_id
  | _, _ => false
  end.

(** The end of [fetchBook]: the row, or [None] when the select failed. *)
Definition fetchBook_resume (fetched : option Book) (st : State)
  : State * list Effect :=
  match fetched with
  | None =>
      (setIsLoadingBook false st,
       [ShowToast (Toast_Error "Failed to fetch book details"); Navigate "/"])
  | Some (mkBook _ t a d g y owner _ _) =>
      if negb (ownedBy (user st) owner)
      then (setIsLoadingBook false st,
            [ShowToast Toast_AccessDenied; Navigate "/"])
      else (setIsLoadingBook false (setFields t a d g (JS.toString y) st), [])
  end.

End AddBook.

(** ** The specification's vocabulary *)
Module Spec.

(** A review references a book when its [bookId] is the book's identity. *)
Definition references (r : ReviewRating) (b : Book) : Prop :=
  book_id r = id b.

(** The reviews of a list that reference a book, in the list's order. *)
Definition reviewsOf (b : Book) (reviews : list ReviewRating)
  : list ReviewRating :=
  filter (fun r => if string_dec (book_id r) (id b) then true else false)
         reviews.

(** [s] contains [term] when letter case is ignored. *)
Definition containsIgnoringCase (s term : string) : Prop :=
  exists pre post,
    JS.toLowerCase s = String.append pre (String.append (JS.toLowerCase term) post).

(** The arithmetic mean of a list of ratings. *)
Definition mean (ratings : list Z) : Q :=
  (inject_Z (fold_right Z.add 0%Z ratings) /
   inject_Z (Z.of_nat (List.length ratings)))%Q.

(** [s] is the numeral, with one digit after the point, of a multiple of
    one tenth that lies within one twentieth of [x]: [x] rounded to one
    decimal. *)
Definition roundedToOneDecimal (x : Q) (s : string) : Prop :=
  exists n : Z,
    s = JS.renderTenths n /\ 0 <= n /\
    (x - (1 # 20) <= inject_Z n / 10 /\ inject_Z n / 10 <= x + (1 # 20))%Q.

(** The submission gate: a submission is in flight exactly while
    [isSubmitting] holds, and then there is one. *)
Definition gate (s : BookDetails.Session) : Prop :=
  BookDetails.submitsInFlight s =
  if BookDetails.isSubmitting (BookDetails.page s) then 1%nat else 0%nat.

(** A decimal digit. *)
Definition isDigit (c : ascii) : bool :=
  match JS.digitValue c with Some _ => true | None => false end.

(** First and last character of a string. *)
Definition firstChar (s : string) : option ascii :=
  match s with EmptyString => None | String c _ => Some c end.

Fixpoint lastChar (s : string) : option ascii :=
  match s with
  | EmptyString => None
  | String c s' =>
      match s' with EmptyString => Some c | _ => lastChar s' end
  end.

(** A string that neither starts nor ends with white space. *)
Definition noEdgeSpace (s : string) : Prop :=
  (forall c, firstChar s = Some c -> JS.isWhiteSpace c = false) /\
  (forall c, lastChar s = Some c -> JS.isWhiteSpace c = false).

(** The books that pass the search and the genre filter, in the order of
    the collection. *)
Definition passes {P : Platform} (searchTerm selectedGenre : string)
    (b : BookWithRatings) : bool :=
  ((negb (JS.truthy searchTerm) || Index.matchesSearch searchTerm b) &&
   (String.eqb selectedGenre "all" || String.eqb (genre b) selectedGenre))%bool.

Definition passing {P : Platform} (books : list BookWithRatings)
    (searchTerm selectedGenre : string) : list BookWithRatings :=
  filter (passes searchTerm selectedGenre) books.

(** The catalog page shows what its inputs select. *)
Definition upToDate {P : Platform} (st : Index.State) : Prop :=
  Index.filteredBooks st =
  Index.filtered (Index.books st) (Index.searchTerm st)
                 (Index.selectedGenre st) (Index.sortBy st).

(** The current page is page 1 or a page that exists. *)
Definition pageInRange (st : Index.State) : Prop :=
  1 <= Index.currentPage st /\
  (Index.currentPage st = 1 \/ Index.currentPage st <= Index.totalPages st).

(** Every review of the store references a book of the store. *)
Definition integrity (db : Store.DB) : Prop :=
  forall r, In r (Store.reviews db) ->
            exists b, In b (Store.books db) /\ id b = Review.book_id r.

(** The bounds of [bookSchema] on values as they are stored. *)
Definition validBook (currentYear : Z) (t a d g : string) (y : Z) : Prop :=
  (1 <= String.length t <= 200)%nat /\
  (1 <= String.length a <= 100)%nat /\
  (10 <= String.length d <= 2000)%nat /\
  (1 <= String.length g <= 50)%nat /\
  1000 <= y <= currentYear + 1.

(** What [fetchBooks] computes from the store. *)
Definition fetchBooks {P : Platform} (db : Store.DB) : list BookWithRatings :=
  Aggregation.booksWithRatings (Store.select_books db) (Store.select_ratings db).

(** The store's constraint [CHECK (rating >= 1 AND rating <= 5)]. *)
Definition validRating (rating : Z) : Prop := 1 <= rating <= 5.

(** The draft's rating reads as a rating the store accepts. *)
Definition draftRating (st : BookDetails.State) : Prop :=
  exists n, JS.parseInt (BookDetails.rating st) = Some n /\ validRating n.

(** Identities are primary keys. *)
Definition uniqueBookIds (db : Store.DB) : Prop :=
  NoDup (map id (Store.books db)).

Definition uniqueReviewIds (db : Store.DB) : Prop :=
  NoDup (map Review.id (Store.reviews db)).

End Spec.

(** Sample rows used to run the definitions. *)
Module Sample.

(** A platform to run on: timestamps are written as epoch milliseconds
    and strings are compared by code unit (the ordering of the C locale). *)
Definition epochMillis (s : string) : Z :=
  match JS.parseInt s with Some n => n | None => 0 end.

Definition codeUnitCompare (a b : string) : Z :=
  match String.compare a b with Lt => -1 | Eq => 0 | Gt => 1 end.

Definition platform : Platform :=
  {| getTime := epochMillis; localeCompare := codeUnitCompare |}.

Definition mkB (i t a g : string) (y : Z) (c : string) : Book :=
  mkBook i t a "A description of the book." g y None c c.

Definition dune : Book :=
  mkB "b1" "Dune" "Frank Herbert" "Science Fiction" 1965 "1759276800000".
Definition emma : Book :=
  mkB "b2" "Emma" "Jane Austen" "Fiction" 1815 "1759363200000".
Definition solaris : Book :=
  mkB "b3" "Solaris" "Stanislaw Lem" "Science Fiction" 1961 "1759449600000".

Definition ratings : list ReviewRating :=
  [mkReviewRating "b1" 4; mkReviewRating "gone" 3; mkReviewRating "b1" 5].

Definition catalog : list BookWithRatings :=
  Aggregation.booksWithRatings [dune; emma; solaris] ratings.

(** The same books as the store might return them in another order. *)
Definition shuffled : list BookWithRatings :=
  Aggregation.booksWithRatings [solaris; dune; emma] ratings.

Definition duneRated : BookWithRatings :=
  {| book := dune; averageRating := (9 # 2)%Q; reviewCount := 2 |}.

Definition reviewByB : Review.t :=
  Review.mk "r1" "b1" "B" 4 "A classic of the genre." "1759536000000"
            "1759536000000" (Some "Bea"%string).
Definition reviewByA : Review.t :=
  Review.mk "r2" "b1" "A" 5 "Could not put it down!" "1759622400000"
            "1759622400000" (Some "Ann"%string).

Definition db : Store.DB := Store.mkDB [dune; emma; solaris] [reviewByB; reviewByA].

(** The page of Dune, loaded, as seen by [user] with a draft. *)
Definition pageOf (user : option string) (rating text : string)
    (submitting : bool) : BookDetails.State :=
  BookDetails.mkState user (Some dune) [reviewByA; reviewByB] rating text
                      None false submitting.

(** The page of Emma, which nobody has reviewed. *)
Definition emptyPage : BookDetails.State :=
  BookDetails.mkState (Some "A"%string) (Some emma) [] "5" "" None false false.

Definition emmaRated : BookWithRatings :=
  {| book := emma; averageRating := 0%Q; reviewCount := 0 |}.

(** A book that viewer A added, and a store holding it. *)
Definition educated : Book :=
  mkBook "b4" "Educated" "Tara Westover"
         "A memoir of a young woman who leaves her family." "Memoir" 2018
         (Some "A"%string) "1759708800000" "1759708800000".

Definition reviewOfEducated : Review.t :=
  Review.mk "r3" "b4" "B" 3 "Hard to read, harder to forget." "1759795200000"
            "1759795200000" (Some "Bea"%string).

Definition ownedDb : Store.DB :=
  Store.mkDB [dune; educated] [reviewByB; reviewOfEducated].

(** The add/edit form as viewer A filled it in. *)
Definition formOf (user : option string) (t a d g y : string) : AddBook.State :=
  AddBook.mkState user t a d g y false false.

Definition sevenBooks (page : Z) : Index.State :=
  Index.mkState (repeat duneRated 7) (repeat duneRated 7) "" "all" "recent" page.

Definition view (search genre sort : string) (page : Z) : Index.State :=
  Index.mkState catalog (@Index.filtered platform catalog search genre sort)
                search genre sort page.

End Sample.

(** * Properties *)

(** ** Facts about the built-ins *)

Lemma reduce_sum_acc {A : Type} (f : A -> Z) (l : list A) (acc : Z) :
  fold_left (fun sum r => sum + f r) l acc = acc + fold_right Z.add 0 (map f l).
Proof.
  revert acc; induction l as [|x l IH]; intros acc; simpl.
  - lia.
  - rewrite IH. lia.
Qed.

Lemma reduce_sum_fold_right {A : Type} (f : A -> Z) (l : list A) :
  JS.reduce_sum f l = fold_right Z.add 0 (map f l).
Proof. unfold JS.reduce_sum. rewrite reduce_sum_acc. lia. Qed.

Lemma startsWith_spec (s t : string) :
  JS.startsWith s t = true <-> exists post, s = String.append t post.
Proof.
  revert s; induction t as [|b t IH]; intros s; simpl.
  - split; [intros _; now exists s | reflexivity].
  - destruct s as [|a s].
    + split; [discriminate | intros [post H]; discriminate].
    + rewrite andb_true_iff, Ascii.eqb_eq, IH. split.
      * intros [-> [post ->]]. now exists post.
      * intros [post H]. injection H as -> ->. split; [reflexivity | now exists post].
Qed.

Lemma includes_spec (s t : string) :
  JS.includes s t = true <->
  exists pre post, s = String.append pre (String.append t post).
Proof.
  induction s as [|a s IH]; simpl; rewrite orb_true_iff.
  - split.
    + intros [H | H]; [|discriminate].
      apply startsWith_spec in H. destruct H as [post H]. now exists EmptyString, post.
    + intros [pre [post H]]. left. apply startsWith_spec.
      destruct pre; simpl in H; [now exists post | discriminate].
  - split.
    + intros [H | H].
      * apply startsWith_spec in H. destruct H as [post H]. now exists EmptyString, post.
      * apply IH in H. destruct H as [pre [post ->]]. now exists (String a pre), post.
    + intros [pre [post H]]. destruct pre as [|c pre]; simpl in H.
      * left. apply startsWith_spec. now exists post.
      * injection H as -> ->. right. apply IH. now exists pre, post.
Qed.

Section SortFacts.
Context {A : Type} (compareFn : A -> A -> Q).

Lemma insert_perm (x : A) (l : list A) :
  Permutation (JS.insert compareFn x l) (x :: l).
Proof.
  induction l as [|y l IH]; simpl.
  - reflexivity.
  - destruct (Qle_bool (compareFn x y) 0).
    + reflexivity.
    + rewrite IH. apply perm_swap.
Qed.

Lemma sort_perm (l : list A) : Permutation (JS.sort compareFn l) l.
Proof.
  induction l as [|x l IH]; simpl.
  - reflexivity.
  - rewrite insert_perm. now constructor.
Qed.

Lemma sort_In (l : list A) (x : A) : In x (JS.sort compareFn l) <-> In x l.
Proof.
  split; apply Permutation_in; [apply sort_perm | symmetry; apply sort_perm].
Qed.

Lemma sort_length (l : list A) :
  List.length (JS.sort compareFn l) = List.length l.
Proof. apply Permutation_length, sort_perm. Qed.

(** A relation the comparator decides: whenever the comparator keeps [a]
    first the pair is ordered, whenever it does not the swapped pair is. *)
Variable R : A -> A -> Prop.
Hypothesis R_keep : forall a b, Qle_bool (compareFn a b) 0 = true -> R a b.
Hypothesis R_swap : forall a b, Qle_bool (compareFn a b) 0 = false -> R b a.
Hypothesis R_trans : forall a b c, R a b -> R b c -> R a c.

Lemma insert_sorted (x : A) (l : list A) :
  StronglySorted R l -> StronglySorted R (JS.insert compareFn x l).
Proof.
  induction 1 as [|y l Hs IH Hy]; simpl.
  - repeat constructor.
  - destruct (Qle_bool (compareFn x y) 0) eqn:E.
    + constructor; [now constructor|].
      constructor; [now apply R_keep|].
      rewrite Forall_forall in *. intros z Hz. eapply R_trans; eauto.
    + constructor; [exact IH|].
      rewrite Forall_forall in *. intros z Hz.
      apply (Permutation_in _ (insert_perm x l)) in Hz.
      destruct Hz as [<- | Hz]; [now apply R_swap | now apply Hy].
Qed.

Lemma sort_sorted (l : list A) : StronglySorted R (JS.sort compareFn l).
Proof.
  induction l as [|x l IH]; simpl; [constructor | now apply insert_sorted].
Qed.
End SortFacts.

(** ** Aggregation *)

Lemma reviewsOf_bookReviews (b : Book) (reviewsData : list ReviewRating) :
  Spec.reviewsOf b reviewsData = Aggregation.bookReviews reviewsData b.
Proof.
  unfold Spec.reviewsOf, Aggregation.bookReviews. apply filter_ext. intros r.
  destruct (string_dec (book_id r) (id b)) as [E | E].
  - symmetry. now apply String.eqb_eq.
  - symmetry. now apply String.eqb_neq.
Qed.

Lemma avgRating_mean (rs : list ReviewRating) :
  rs <> [] -> Aggregation.avgRating rs = Spec.mean (map rating rs).
Proof.
  intros Hne. unfold Aggregation.avgRating, Spec.mean, JS.div.
  destruct rs as [|r rs]; [congruence|].
  rewrite reduce_sum_fold_right, length_map. reflexivity.
Qed.

Lemma bookReviews_orphan (b : Book) (r : ReviewRating)
    (before after : list ReviewRating) :
  ~ Spec.references r b ->
  Aggregation.bookReviews (before ++ r :: after) b =
  Aggregation.bookReviews (before ++ after) b.
Proof.
  intros Hr. unfold Aggregation.bookReviews.
  rewrite !filter_app. simpl.
  destruct (String.eqb (book_id r) (id b)) eqn:E; [|reflexivity].
  apply String.eqb_eq in E. contradiction.
Qed.

(** C1. For every list of books and list of reviews, the aggregate at the
    position of each book has [reviewCount] equal to the number of reviews
    that reference the book, [averageRating] equal to the arithmetic mean of
    their ratings when there is at least one and 0 when there is none; and a
    review that references no book of the input can be dropped from the
    review list without changing any aggregate. *)
Theorem aggregation_mean_and_count
    (booksData : list Book) (reviewsData : list ReviewRating) :
  (forall i b, nth_error booksData i = Some b ->
     exists w,
       nth_error (Aggregation.booksWithRatings booksData reviewsData) i = Some w /\
       reviewCount w = List.length (Spec.reviewsOf b reviewsData) /\
       (Spec.reviewsOf b reviewsData <> [] ->
        averageRating w = Spec.mean (map rating (Spec.reviewsOf b reviewsData))) /\
       (Spec.reviewsOf b reviewsData = [] -> averageRating w = 0%Q)) /\
  (forall r before after,
     (forall b, In b booksData -> ~ Spec.references r b) ->
     Aggregation.booksWithRatings booksData (before ++ r :: after) =
     Aggregation.booksWithRatings booksData (before ++ after)).
Proof.
  split.
  - intros i b Hb. unfold Aggregation.booksWithRatings.
    eexists. split; [apply map_nth_error; exact Hb|]. cbn [reviewCount averageRating].
    rewrite reviewsOf_bookReviews. split; [reflexivity|]. split.
    + apply avgRating_mean.
    + intros ->. reflexivity.
  - intros r before after Horphan. unfold Aggregation.booksWithRatings.
    apply map_ext_in. intros b Hb.
    now rewrite (bookReviews_orphan b r before after (Horphan b Hb)).
Qed.

(** Ratings 4 and 5 on one book give 4.5 over 2 reviews, and the review of
    a vanished book changes nothing. *)
Lemma aggregation_mean_and_count_witness :
  (exists w,
     nth_error (Aggregation.booksWithRatings [Sample.dune; Sample.emma]
                                             Sample.ratings) 0 = Some w /\
     reviewCount w = 2%nat /\ averageRating w = (9 # 2)%Q) /\
  Aggregation.booksWithRatings [Sample.dune; Sample.emma] Sample.ratings =
  Aggregation.booksWithRatings [Sample.dune; Sample.emma]
    [mkReviewRating "b1" 4; mkReviewRating "b1" 5].
Proof.
  destruct (aggregation_mean_and_count [Sample.dune; Sample.emma]
              Sample.ratings) as [Hmean Horphan].
  split.
  - destruct (Hmean 0%nat Sample.dune eq_refl) as [w [Hw [Hcount [Havg _]]]].
    exists w. split; [exact Hw|]. split; [exact Hcount|].
    apply Havg. vm_compute. discriminate.
  - apply (Horphan (mkReviewRating "gone" 3) [mkReviewRating "b1" 4]
                   [mkReviewRating "b1" 5]).
    intros b [<- | [<- | []]]; vm_compute; discriminate.
Defined.

(** C10. The aggregation output has the length and the order of the input
    book list, and the record at each position carries the input book at
    that position unchanged, field by field, beside the two added fields. *)
Theorem aggregation_preserves_books
    (booksData : list Book) (reviewsData : list ReviewRating) :
  List.length (Aggregation.booksWithRatings booksData reviewsData) =
    List.length booksData /\
  map book (Aggregation.booksWithRatings booksData reviewsData) = booksData /\
  (forall i (w : BookWithRatings) b,
     nth_error (Aggregation.booksWithRatings booksData reviewsData) i = Some w ->
     nth_error booksData i = Some b ->
     id w = id b /\ title w = title b /\ author w = author b /\
     description w = description b /\ genre w = genre b /\
     published_year w = published_year b /\ added_by w = added_by b /\
     created_at w = created_at b /\ updated_at w = updated_at b).
Proof.
  unfold Aggregation.booksWithRatings. split; [apply length_map|]. split.
  - rewrite map_map. cbn [book]. apply map_id.
  - intros i w b Hw Hb.
    rewrite (map_nth_error _ _ _ Hb) in Hw. injection Hw as <-.
    cbn [book]. repeat split.
Qed.

(** ** The filter *)

Lemma truthy_false (s : string) : JS.truthy s = false <-> s = EmptyString.
Proof. destruct s; simpl; split; congruence. Qed.

Lemma matchesSearch_spec (searchTerm : string) (b : BookWithRatings) :
  Index.matchesSearch searchTerm b = true <->
  Spec.containsIgnoringCase (title b) searchTerm \/
  Spec.containsIgnoringCase (author b) searchTerm.
Proof.
  unfold Index.matchesSearch, Spec.containsIgnoringCase.
  now rewrite orb_true_iff, !includes_spec.
Qed.

(** C3. Every book of the filtered result is a book of the collection whose
    title or author contains the search term, letter case ignored, when the
    term is not empty, and whose genre is the selected genre when the
    selection is not ["all"]; conversely a book is in the result as soon as
    it passes both filters, the empty term and the selection ["all"] each
    passing every book. *)
Theorem filtered_sound_and_complete {P : Platform}
    (books : list BookWithRatings) (searchTerm selectedGenre sortBy : string) :
  (forall b, In b (Index.filtered books searchTerm selectedGenre sortBy) ->
     In b books /\
     (searchTerm <> EmptyString ->
      Spec.containsIgnoringCase (title b) searchTerm \/
      Spec.containsIgnoringCase (author b) searchTerm) /\
     (selectedGenre <> "all"%string -> genre b = selectedGenre)) /\
  (forall b, In b books ->
     (searchTerm = EmptyString \/
      Spec.containsIgnoringCase (title b) searchTerm \/
      Spec.containsIgnoringCase (author b) searchTerm) ->
     (selectedGenre = "all"%string \/ genre b = selectedGenre) ->
     In b (Index.filtered books searchTerm selectedGenre sortBy)).
Proof.
  unfold Index.filtered. split.
  - intros b Hb. apply sort_In in Hb.
    destruct (String.eqb_spec selectedGenre "all") as [Eg | Eg]; simpl in Hb.
    + destruct (JS.truthy searchTerm) eqn:Es.
      * apply filter_In in Hb. destruct Hb as [Hin Hm].
        apply matchesSearch_spec in Hm. repeat split; auto. contradiction.
      * apply truthy_false in Es. repeat split; auto; contradiction.
    + apply filter_In in Hb. destruct Hb as [Hb Hg]. apply String.eqb_eq in Hg.
      destruct (JS.truthy searchTerm) eqn:Es.
      * apply filter_In in Hb. destruct Hb as [Hin Hm].
        apply matchesSearch_spec in Hm. repeat split; auto.
      * apply truthy_false in Es. repeat split; auto. contradiction.
  - intros b Hin Hs Hg. apply sort_In.
    assert (Hsearch : In b (if JS.truthy searchTerm
                            then filter (Index.matchesSearch searchTerm) books
                            else books)).
    { destruct (JS.truthy searchTerm) eqn:Es; [|exact Hin].
      apply filter_In. split; [exact Hin|]. apply matchesSearch_spec.
      destruct Hs as [-> | Hs]; [discriminate | exact Hs]. }
    destruct (String.eqb_spec selectedGenre "all") as [Eg | Eg]; simpl.
    + exact Hsearch.
    + apply filter_In. split; [exact Hsearch|]. apply String.eqb_eq.
      destruct Hg as [Hg | Hg]; [contradiction | exact Hg].
Qed.

(** Searching the sample catalog for "HERB" in genre "Science Fiction"
    keeps Dune, whose author is Frank Herbert. *)
Lemma filtered_sound_and_complete_witness :
  In Sample.duneRated
     (@Index.filtered Sample.platform Sample.catalog "HERB"
                      "Science Fiction" "title") /\
  (Spec.containsIgnoringCase (title Sample.duneRated) "HERB" \/
   Spec.containsIgnoringCase (author Sample.duneRated) "HERB") /\
  genre Sample.duneRated = "Science Fiction"%string.
Proof.
  destruct (@filtered_sound_and_complete Sample.platform Sample.catalog
              "HERB" "Science Fiction" "title") as [Hsound Hcomplete].
  assert (Hin : In Sample.duneRated
                   (@Index.filtered Sample.platform Sample.catalog "HERB"
                                    "Science Fiction" "title")).
  { apply Hcomplete.
    - left. reflexivity.
    - right. right. exists "frank "%string, "ert"%string. reflexivity.
    - right. reflexivity. }
  split; [exact Hin|].
  destruct (Hsound _ Hin) as [_ [Hs Hg]].
  split; [apply Hs | apply Hg]; discriminate.
Defined.

(** ** The sort *)

Lemma Qle_bool_false (x y : Q) : Qle_bool x y = false -> (y <= x)%Q.
Proof.
  intros H. apply Qlt_le_weak, Qnot_le_lt. intros Hle.
  apply Qle_bool_iff in Hle. congruence.
Qed.

Lemma Qle_bool_inject_Z (z : Z) : Qle_bool (inject_Z z) 0 = (z <=? 0).
Proof. unfold Qle_bool, inject_Z. simpl. now rewrite Z.mul_1_r. Qed.

Lemma Qle_bool_minus (x y : Q) : Qle_bool (x - y) 0 = true <-> (x <= y)%Q.
Proof.
  rewrite Qle_bool_iff. split; intros H; lra.
Qed.

(** Sorting by a numeric field with the comparator [b.field - a.field]
    yields a sequence that is non-increasing on the field. *)
Lemma sort_descending_Z {A : Type} (field : A -> Z) (l : list A) :
  StronglySorted (fun a b => field b <= field a)
                 (JS.sort (fun a b => inject_Z (field b - field a)) l).
Proof.
  apply sort_sorted.
  - intros a b H. rewrite Qle_bool_inject_Z in H. lia.
  - intros a b H. rewrite Qle_bool_inject_Z in H. lia.
  - intros a b c. lia.
Qed.

Lemma sort_descending_Q {A : Type} (field : A -> Q) (l : list A) :
  StronglySorted (fun a b => (field b <= field a)%Q)
                 (JS.sort (fun a b => (field b - field a)%Q) l).
Proof.
  apply sort_sorted.
  - intros a b H. now apply Qle_bool_minus.
  - intros a b H. apply Qle_bool_false in H. lra.
  - intros a b c Hab Hbc. lra.
Qed.

Lemma sort_ascending_by {A : Type} (cmp : string -> string -> Z)
    (key : A -> string) (l : list A) :
  consistent cmp ->
  StronglySorted (fun a b => cmp (key a) (key b) <= 0)
                 (JS.sort (fun a b => inject_Z (cmp (key a) (key b))) l).
Proof.
  intros [Htotal Htrans]. apply sort_sorted.
  - intros a b H. rewrite Qle_bool_inject_Z in H. lia.
  - intros a b H. rewrite Qle_bool_inject_Z in H. apply Htotal. lia.
  - intros a b c. apply Htrans.
Qed.

Lemma filter_filter_and {A : Type} (f g : A -> bool) (l : list A) :
  filter f (filter g l) = filter (fun x => (g x && f x)%bool) l.
Proof.
  induction l as [|x l IH]; simpl; [reflexivity|].
  destruct (g x); simpl; [destruct (f x)|]; now rewrite IH.
Qed.

Lemma filtered_passing {P : Platform} (books : list BookWithRatings)
    (searchTerm selectedGenre sortBy : string) :
  Index.filtered books searchTerm selectedGenre sortBy =
  JS.sort (Index.compareFn sortBy) (Spec.passing books searchTerm selectedGenre).
Proof.
  unfold Index.filtered, Spec.passing, Spec.passes. f_equal.
  destruct (JS.truthy searchTerm), (String.eqb selectedGenre "all");
    cbn [negb orb].
  - apply filter_ext. intros b. now rewrite andb_true_r.
  - rewrite filter_filter_and. reflexivity.
  - symmetry. apply forallb_filter_id. now apply forallb_forall.
  - reflexivity.
Qed.

(** C4. Whatever the collection and the filters, the result for any sort
    key is a rearrangement of the books that pass the filters; for the key
    [title] it is non-decreasing in the locale's order of titles (the
    locale's comparison being a consistent comparator), and for the keys
    [rating], [year] and [recent] it is non-increasing on [averageRating],
    [published_year] and the time of [created_at]. *)
Theorem filtered_sorted {P : Platform}
    (books : list BookWithRatings) (searchTerm selectedGenre : string) :
  (forall sortBy,
     Permutation (Index.filtered books searchTerm selectedGenre sortBy)
                 (Spec.passing books searchTerm selectedGenre)) /\
  (consistent localeCompare ->
   StronglySorted
     (fun a b : BookWithRatings => localeCompare (title a) (title b) <= 0)
     (Index.filtered books searchTerm selectedGenre "title")) /\
  StronglySorted
    (fun a b : BookWithRatings => (averageRating b <= averageRating a)%Q)
    (Index.filtered books searchTerm selectedGenre "rating") /\
  StronglySorted
    (fun a b : BookWithRatings => published_year b <= published_year a)
    (Index.filtered books searchTerm selectedGenre "year") /\
  StronglySorted
    (fun a b : BookWithRatings =>
       getTime (created_at b) <= getTime (created_at a))
    (Index.filtered books searchTerm selectedGenre "recent").
Proof.
  split.
  - intros sortBy. rewrite filtered_passing. apply sort_perm.
  - unfold Index.filtered.
    repeat split.
    + intros Hc.
      apply (sort_ascending_by localeCompare (fun b : BookWithRatings => title b)).
      exact Hc.
    + apply (sort_descending_Q averageRating).
    + apply (sort_descending_Z (fun b : BookWithRatings => published_year b)).
    + apply (sort_descending_Z
               (fun b : BookWithRatings => getTime (created_at b))).
Qed.

Lemma ascii_compare_refl (c : ascii) : Ascii.compare c c = Eq.
Proof. unfold Ascii.compare. apply N.compare_refl. Qed.

Lemma string_compare_le_trans (a b c : string) :
  String.compare a b <> Gt -> String.compare b c <> Gt ->
  String.compare a c <> Gt.
Proof.
  revert b c; induction a as [|x a IH]; intros [|y b] [|z c]; simpl;
    try congruence.
  destruct (Ascii.compare x y) eqn:Exy; try congruence;
    destruct (Ascii.compare y z) eqn:Eyz; try congruence.
  - apply Ascii.compare_eq_iff in Exy, Eyz. subst.
    rewrite ascii_compare_refl. apply IH.
  - apply Ascii.compare_eq_iff in Exy. subst. rewrite Eyz. congruence.
  - apply Ascii.compare_eq_iff in Eyz. subst. rewrite Exy. congruence.
  - unfold Ascii.compare in *. rewrite N.compare_lt_iff in Exy, Eyz.
    assert (H : (N_of_ascii x ?= N_of_ascii z)%N = Lt)
      by (apply N.compare_lt_iff; lia).
    rewrite H. congruence.
Qed.

Lemma codeUnitCompare_consistent : consistent Sample.codeUnitCompare.
Proof.
  unfold consistent, Sample.codeUnitCompare. split.
  - intros a b. rewrite (String.compare_antisym b a).
    destruct (String.compare a b); simpl; lia.
  - intros a b c Hab Hbc.
    pose proof (string_compare_le_trans a b c) as H.
    destruct (String.compare a b); try lia;
      destruct (String.compare b c); try lia;
      destruct (String.compare a c); try lia;
      exfalso; apply H; congruence.
Qed.

(** A catalog that arrives as Solaris, Dune, Emma is displayed as Dune,
    Emma, Solaris under the key [title] (code-unit comparison), and with
    Dune, the only rated book, first under the key [rating]. *)
Lemma filtered_sorted_witness :
  consistent (@localeCompare Sample.platform) /\
  Permutation
    (@Index.filtered Sample.platform Sample.shuffled "" "all" "title")
    (@Spec.passing Sample.platform Sample.shuffled "" "all") /\
  StronglySorted
    (fun a b : BookWithRatings =>
       @localeCompare Sample.platform (title a) (title b) <= 0)
    (@Index.filtered Sample.platform Sample.shuffled "" "all" "title") /\
  map (fun b : BookWithRatings => title b)
      (@Index.filtered Sample.platform Sample.shuffled "" "all" "title") =
    ["Dune"; "Emma"; "Solaris"]%string /\
  map (fun b : BookWithRatings => title b)
      (@Index.filtered Sample.platform Sample.shuffled "" "all" "rating") =
    ["Dune"; "Solaris"; "Emma"]%string.
Proof.
  destruct (@filtered_sorted Sample.platform Sample.shuffled "" "all")
    as [Hperm [Htitle _]].
  split; [exact codeUnitCompare_consistent|].
  split; [apply Hperm|].
  split; [apply Htitle; exact codeUnitCompare_consistent|].
  split; reflexivity.
Defined.

(** ** Pagination *)

Lemma ceil_div_5_eq (n : Z) : JS.ceil_div n 5 = - ((- n) / 5).
Proof.
  unfold JS.ceil_div, JS.div, Qceiling, Qfloor.
  cbv [Qmult Qinv Qopp inject_Z Qnum Qden Qdiv Pos.mul].
  rewrite Z.mul_1_r. reflexivity.
Qed.

(** [Math.ceil(n / 5)] is the least integer [k] with [n <= 5 * k]. *)
Lemma ceil_div_5_spec (n : Z) :
  5 * (JS.ceil_div n 5 - 1) < n <= 5 * JS.ceil_div n 5.
Proof.
  rewrite ceil_div_5_eq. Z.to_euclidean_division_equations. lia.
Qed.

Lemma slice_length {A : Type} (l : list A) (start end_ : Z) :
  0 <= start <= end_ ->
  Z.of_nat (List.length (JS.slice l start end_)) =
  Z.max 0 (Z.min end_ (Z.of_nat (List.length l)) - start).
Proof.
  intros H. unfold JS.slice, JS.clampIndex.
  rewrite length_firstn, length_skipn.
  destruct (Z.ltb_spec start 0), (Z.ltb_spec end_ 0); lia.
Qed.

Lemma length_zero_nil {A : Type} (l : list A) :
  Z.of_nat (List.length l) = 0 -> l = [].
Proof. destruct l; simpl; [reflexivity | lia]. Qed.

(** C2. With [n] filtered books, [totalPages] is the ceiling of [n / 5];
    on a valid page [p] (from 1 to [totalPages]) the slice has exactly
    [min 5 (n - (p - 1) * 5)] items; on a page beyond [totalPages] it is
    empty; and 7 books give 2 pages of 5 and 2 items. *)
Theorem pagination (st : Index.State) :
  let n := Z.of_nat (List.length (Index.filteredBooks st)) in
  let p := Index.currentPage st in
  (5 * (Index.totalPages st - 1) < n <= 5 * Index.totalPages st) /\
  (1 <= p <= Index.totalPages st ->
   Z.of_nat (List.length (Index.paginatedBooks st)) = Z.min 5 (n - (p - 1) * 5)) /\
  (Index.totalPages st < p -> Index.paginatedBooks st = []) /\
  (n = 7 ->
   Index.totalPages st = 2 /\
   (p = 1 -> List.length (Index.paginatedBooks st) = 5%nat) /\
   (p = 2 -> List.length (Index.paginatedBooks st) = 2%nat)).
Proof.
  intros n p.
  pose proof (ceil_div_5_spec n) as Hceil.
  assert (Hn : 0 <= n) by (unfold n; lia).
  assert (Hlen : 1 <= p ->
            Z.of_nat (List.length (Index.paginatedBooks st)) =
            Z.max 0 (Z.min (p * 5) n - (p - 1) * 5)).
  { intros Hp. unfold Index.paginatedBooks, Index.ITEMS_PER_PAGE.
    apply slice_length. fold p. lia. }
  unfold Index.totalPages, Index.ITEMS_PER_PAGE in *. fold n in Hceil |- *.
  split; [exact Hceil|]. split; [|split].
  - intros Hp. rewrite Hlen by lia. lia.
  - intros Hp. apply length_zero_nil. rewrite Hlen by lia. lia.
  - intros H7. split; [lia|]. split; intros Hp.
    + apply Nat2Z.inj. rewrite Hlen by lia. lia.
    + apply Nat2Z.inj. rewrite Hlen by lia. lia.
Qed.

(** ** View state *)

(** C9. A change of [searchTerm], of [selectedGenre] or of [sortBy] leaves
    [currentPage] at 1, and a change of [currentPage] leaves the filtered
    and sorted collection, and the inputs it is computed from, as they
    were. *)
Theorem page_reset_and_frame {P : Platform} (st : Index.State) :
  (forall v, v <> Index.searchTerm st ->
     Index.currentPage (Index.setSearchTerm v st) = 1) /\
  (forall v, v <> Index.selectedGenre st ->
     Index.currentPage (Index.setSelectedGenre v st) = 1) /\
  (forall v, v <> Index.sortBy st ->
     Index.currentPage (Index.setSortBy v st) = 1) /\
  (forall p,
     Index.filteredBooks (Index.setCurrentPage p st) = Index.filteredBooks st /\
     Index.books (Index.setCurrentPage p st) = Index.books st /\
     Index.searchTerm (Index.setCurrentPage p st) = Index.searchTerm st /\
     Index.selectedGenre (Index.setCurrentPage p st) = Index.selectedGenre st /\
     Index.sortBy (Index.setCurrentPage p st) = Index.sortBy st /\
     Index.currentPage (Index.setCurrentPage p st) = p).
Proof.
  repeat split.
  - intros v Hv. unfold Index.setSearchTerm.
    apply String.eqb_neq in Hv. rewrite Hv. reflexivity.
  - intros v Hv. unfold Index.setSelectedGenre.
    apply String.eqb_neq in Hv. rewrite Hv. reflexivity.
  - intros v Hv. unfold Index.setSortBy.
    apply String.eqb_neq in Hv. rewrite Hv. reflexivity.
Qed.

Lemma pagination_witness :
  Index.totalPages (Sample.sevenBooks 2) = 2 /\
  Z.of_nat (List.length (Index.paginatedBooks (Sample.sevenBooks 2))) =
    Z.min 5 (7 - (2 - 1) * 5) /\
  List.length (Index.paginatedBooks (Sample.sevenBooks 1)) = 5%nat /\
  Index.paginatedBooks (Sample.sevenBooks 3) = [].
Proof.
  destruct (pagination (Sample.sevenBooks 2)) as [_ [Hvalid [_ Hseven]]].
  destruct (Hseven eq_refl) as [Htotal _].
  destruct (pagination (Sample.sevenBooks 1)) as [_ [_ [_ Hfirst]]].
  destruct (pagination (Sample.sevenBooks 3)) as [_ [_ [Hbeyond _]]].
  split; [exact Htotal|]. split; [|split].
  - apply Hvalid. rewrite Htotal. simpl. lia.
  - apply (proj1 (proj2 (Hfirst eq_refl))). reflexivity.
  - apply Hbeyond.
    replace (Index.totalPages (Sample.sevenBooks 3)) with 2 by (symmetry; exact Htotal).
    simpl. lia.
Defined.

Lemma page_reset_and_frame_witness :
  Index.currentPage
    (@Index.setSearchTerm Sample.platform "dune"
       (Sample.view "" "all" "recent" 3)) = 1.
Proof.
  apply (proj1 (@page_reset_and_frame Sample.platform
                  (Sample.view "" "all" "recent" 3))).
  simpl. discriminate.
Defined.

(** ** Rendering of the rating *)

Lemma nearestTenth_bounds (x : Q) :
  (x - (1 # 20) <= inject_Z (JS.nearestTenth x) / 10 /\
   inject_Z (JS.nearestTenth x) / 10 <= x + (1 # 20))%Q.
Proof.
  unfold JS.nearestTenth.
  pose proof (Qfloor_le (x * 10 + (1 # 2))) as Hle.
  pose proof (Qlt_floor (x * 10 + (1 # 2))) as Hlt.
  rewrite inject_Z_plus in Hlt.
  change (inject_Z 1) with 1%Q in Hlt.
  set (n := inject_Z (Qfloor (x * 10 + (1 # 2)))) in *. clearbody n.
  unfold Qdiv. change (/ 10)%Q with (1 # 10)%Q.
  split; lra.
Qed.

Lemma nearestTenth_nonneg (x : Q) : (0 <= x)%Q -> 0 <= JS.nearestTenth x.
Proof.
  intros Hx. unfold JS.nearestTenth.
  change 0 with (Qfloor 0). apply Qfloor_resp_le. lra.
Qed.

Lemma toFixed1_rounds (x : Q) :
  (0 <= x)%Q -> Spec.roundedToOneDecimal x (JS.toFixed1 x).
Proof.
  intros Hx. unfold JS.toFixed1.
  apply Qle_bool_iff in Hx. rewrite Hx. apply Qle_bool_iff in Hx.
  exists (JS.nearestTenth x). split; [reflexivity|].
  split; [now apply nearestTenth_nonneg | apply nearestTenth_bounds].
Qed.

Lemma div_pos (a b : Z) : 0 < a -> 0 < b -> (0 < JS.div a b)%Q.
Proof.
  intros Ha Hb. unfold JS.div. apply Qlt_shift_div_l.
  - unfold Qlt. simpl. lia.
  - rewrite Qmult_0_l. unfold Qlt. simpl. lia.
Qed.

Lemma sum_at_least_length {A : Type} (f : A -> Z) (l : list A) :
  Forall (fun r => Spec.validRating (f r)) l ->
  Z.of_nat (List.length l) <= JS.reduce_sum f l.
Proof.
  rewrite reduce_sum_fold_right.
  induction 1 as [|r l Hr _ IH]; simpl List.length; simpl fold_right.
  - lia.
  - unfold Spec.validRating in Hr. lia.
Qed.

Lemma mean_positive {A : Type} (f : A -> Z) (l : list A) :
  l <> [] -> Forall (fun r => Spec.validRating (f r)) l ->
  (0 < JS.div (JS.reduce_sum f l) (Z.of_nat (List.length l)))%Q.
Proof.
  intros Hne Hvalid. pose proof (sum_at_least_length f l Hvalid) as Hsum.
  assert (0 < Z.of_nat (List.length l)) by (destruct l; simpl; [congruence | lia]).
  apply div_pos; lia.
Qed.

Lemma Forall_filter {A : Type} (Q : A -> Prop) (f : A -> bool) (l : list A) :
  Forall Q l -> Forall Q (filter f l).
Proof.
  rewrite !Forall_forall. intros H x Hx. apply filter_In in Hx. now apply H.
Qed.

(** C8, as the code has it.  On the book card, a book without reviews
    (aggregate (0, 0)) is rendered as "No ratings", not as "0.0", and a book
    with reviews is rendered as its average rounded to one decimal.  On the
    book page, the header renders "0.0" for an empty review list and the
    average rounded to one decimal otherwise.  Ratings are the store's:
    between 1 and 5. *)
Theorem rating_text :
  (forall booksData reviewsData w,
     In w (Aggregation.booksWithRatings booksData reviewsData) ->
     (Spec.reviewsOf w reviewsData = [] ->
      averageRating w = 0%Q /\ reviewCount w = 0%nat /\
      BookCard.render w = "No ratings"%string /\
      BookCard.render w <> "0.0"%string) /\
     (Spec.reviewsOf w reviewsData <> [] ->
      Forall (fun r => Spec.validRating (rating r)) reviewsData ->
      Spec.roundedToOneDecimal
        (Spec.mean (map rating (Spec.reviewsOf w reviewsData)))
        (BookCard.render w))) /\
  (forall st,
     (BookDetails.reviews st = [] ->
      BookDetails.averageRating st = "0.0"%string) /\
     (BookDetails.reviews st <> [] ->
      Forall (fun r => Spec.validRating (Review.rating r))
             (BookDetails.reviews st) ->
      Spec.roundedToOneDecimal
        (Spec.mean (map Review.rating (BookDetails.reviews st)))
        (BookDetails.averageRating st))).
Proof.
  split.
  - intros booksData reviewsData w Hw.
    unfold Aggregation.booksWithRatings in Hw. apply in_map_iff in Hw.
    destruct Hw as [b [<- _]]. cbn [book]. unfold BookCard.render.
    cbn [averageRating reviewCount]. rewrite reviewsOf_bookReviews. split.
    + intros ->. repeat split. discriminate.
    + intros Hne Hvalid.
      set (rs := Aggregation.bookReviews reviewsData b) in *.
      assert (Hrs : Forall (fun r => Spec.validRating (rating r)) rs)
        by (apply Forall_filter; exact Hvalid).
      rewrite <- (avgRating_mean rs Hne).
      assert (Hpos : (0 < Aggregation.avgRating rs)%Q).
      { unfold Aggregation.avgRating. destruct rs as [|r rs']; [congruence|].
        change (0 <? List.length (r :: rs'))%nat with true. cbv iota.
        apply mean_positive; [discriminate | exact Hrs]. }
      unfold BookCard.ratingText.
      destruct (Qle_bool (Aggregation.avgRating rs) 0) eqn:E.
      * apply Qle_bool_iff in E. exfalso. exact (Qlt_not_le _ _ Hpos E).
      * simpl. apply toFixed1_rounds. now apply Qlt_le_weak.
  - intros st. unfold BookDetails.averageRating. split.
    + intros ->. reflexivity.
    + intros Hne Hvalid. destruct (BookDetails.reviews st) as [|r rs] eqn:E;
        [congruence|].
      change (0 <? List.length (r :: rs))%nat with true. cbv iota.
      pose proof (mean_positive Review.rating (r :: rs) Hne Hvalid) as Hpos.
      unfold Spec.mean. rewrite <- reduce_sum_fold_right, length_map.
      apply toFixed1_rounds. now apply Qlt_le_weak.
Qed.

(** The sample catalog's cards: Emma has no reviews, Dune has ratings 4
    and 5. *)
Lemma rating_text_witness :
  BookCard.render Sample.emmaRated = "No ratings"%string /\
  Spec.roundedToOneDecimal (Spec.mean [4; 5]) (BookCard.render Sample.duneRated) /\
  BookCard.render Sample.duneRated = "4.5"%string.
Proof.
  destruct rating_text as [Hcard _].
  split; [|split].
  - apply (Hcard [Sample.dune; Sample.emma; Sample.solaris] Sample.ratings
                 Sample.emmaRated).
    + right. left. reflexivity.
    + reflexivity.
  - apply (proj2 (Hcard [Sample.dune; Sample.emma; Sample.solaris]
                        Sample.ratings Sample.duneRated
                        (or_introl eq_refl))).
    + discriminate.
    + repeat constructor; unfold Spec.validRating; simpl; lia.
  - reflexivity.
Defined.

(** C8 as stated fails on the book page: with no reviews its header reads
    "0.0", so it is not true that every rendering of an empty review set
    is "No ratings". *)
Lemma rating_text_counterexample :
  (BookDetails.reviews Sample.emptyPage = [] /\
   BookDetails.averageRating Sample.emptyPage = "0.0"%string) /\
  ~ (forall st, BookDetails.reviews st = [] ->
                BookDetails.averageRating st = "No ratings"%string).
Proof.
  split; [split; reflexivity|].
  intros Hclaim. specialize (Hclaim Sample.emptyPage eq_refl). discriminate Hclaim.
Qed.

(** ** Review submission *)

Lemma reviewSchema_parse_ok (rating : option Z) (reviewText : string)
    (v : BookDetails.Validated) :
  BookDetails.reviewSchema_parse rating reviewText = inl v <->
  exists n,
    rating = Some n /\ 1 <= n <= 5 /\
    (10 <= String.length (JS.trim reviewText) <= 1000)%nat /\
    v = BookDetails.mkValidated n (JS.trim reviewText).
Proof.
  unfold BookDetails.reviewSchema_parse, BookDetails.rating_issues,
    BookDetails.reviewText_issues.
  destruct rating as [n|].
  - destruct (Z.ltb_spec n 1), (Z.ltb_spec 5 n),
      (Nat.ltb_spec (String.length (JS.trim reviewText)) 10),
      (Nat.ltb_spec 1000 (String.length (JS.trim reviewText)));
      simpl; split;
      try discriminate;
      try (intros [m [Hm [Hr [Ht Hv]]]]; injection Hm as <-; lia).
    + intros Hv. injection Hv as <-. exists n. repeat split; lia.
    + intros [m [Hm [_ [_ ->]]]]. injection Hm as <-. reflexivity.
  - simpl. split; [discriminate | intros [m [Hm _]]; discriminate].
Qed.

Lemma reviewSchema_parse_cases (rating : option Z) (reviewText : string) :
  (exists v, BookDetails.reviewSchema_parse rating reviewText = inl v) \/
  (exists e, BookDetails.reviewSchema_parse rating reviewText = inr e).
Proof.
  destruct (BookDetails.reviewSchema_parse rating reviewText) as [v | e];
    [left; now exists v | right; now exists e].
Qed.

(** C5, as the code has it.  For a signed-in viewer, submit accepts the
    draft exactly when its rating parses to an integer in [1,5] and its
    text, trimmed of surrounding white space, has a length in [10,1000]:
    then a create or update call is issued.  Otherwise the handler shows
    the validation error, issues no store call, and leaves the controller
    not submitting with the draft (rating, text, edited review) as it
    was. *)
Theorem submit_validation (id : string) (st : BookDetails.State)
    (user_id : string) :
  BookDetails.user st = Some user_id ->
  let accepted :=
    exists n, JS.parseInt (BookDetails.rating st) = Some n /\ 1 <= n <= 5 /\
              (10 <= String.length (JS.trim (BookDetails.reviewText st)) <= 1000)%nat in
  let o := BookDetails.handleSubmitReview id st in
  (accepted ->
   exists call, BookDetails.awaits o = Some call /\
                BookDetails.isSubmit call = true) /\
  (~ accepted ->
   (exists issue,
      BookDetails.effects o =
      [BookDetails.ShowToast (BookDetails.Toast_ValidationError issue)]) /\
   BookDetails.awaits o = None /\
   BookDetails.state o = BookDetails.setIsSubmitting false st /\
   BookDetails.isSubmitting (BookDetails.state o) = false /\
   BookDetails.rating (BookDetails.state o) = BookDetails.rating st /\
   BookDetails.reviewText (BookDetails.state o) = BookDetails.reviewText st /\
   BookDetails.editingReview (BookDetails.state o) = BookDetails.editingReview st).
Proof.
  intros Huser accepted o. subst o. unfold BookDetails.handleSubmitReview.
  rewrite Huser. cbn [BookDetails.rating BookDetails.reviewText
                      BookDetails.setIsSubmitting BookDetails.editingReview].
  destruct (reviewSchema_parse_cases (JS.parseInt (BookDetails.rating st))
              (BookDetails.reviewText st)) as [[v Hv] | [e He]].
  - rewrite Hv. pose proof (proj1 (reviewSchema_parse_ok _ _ _) Hv) as Hok.
    split.
    + intros _. cbn [BookDetails.awaits]. eexists. split; [reflexivity|].
      destruct (BookDetails.editingReview st) as [editing|];
        [destruct (JS.truthy editing)|]; reflexivity.
    + intros Hno. exfalso. apply Hno.
      destruct Hok as [n [Hn [Hr [Ht _]]]]. now exists n.
  - rewrite He. split.
    + intros [n [Hn [Hr Ht]]].
      assert (Hok : BookDetails.reviewSchema_parse
                      (JS.parseInt (BookDetails.rating st))
                      (BookDetails.reviewText st) =
                    inl (BookDetails.mkValidated n
                           (JS.trim (BookDetails.reviewText st)))).
      { apply reviewSchema_parse_ok. now exists n. }
      congruence.
    + intros _. cbn. split; [now exists (BookDetails.first e)|].
      repeat split.
Qed.

(** Submitting the text "short" (length 5) as viewer A. *)
Lemma submit_validation_witness :
  let o := BookDetails.handleSubmitReview "b1"
             (Sample.pageOf (Some "A"%string) "5" "short" false) in
  BookDetails.effects o =
    [BookDetails.ShowToast
       (BookDetails.Toast_ValidationError BookDetails.reviewText_too_small)] /\
  BookDetails.awaits o = None /\
  BookDetails.state o = Sample.pageOf (Some "A"%string) "5" "short" false.
Proof.
  destruct (submit_validation "b1"
              (Sample.pageOf (Some "A"%string) "5" "short" false) "A" eq_refl)
    as [_ Hrejected].
  assert (Hno : ~ (exists n,
             JS.parseInt "5" = Some n /\ 1 <= n <= 5 /\
             (10 <= String.length (JS.trim "short") <= 1000)%nat)).
  { intros [n [_ [_ [Hlen _]]]]. vm_compute in Hlen. lia. }
  destruct (Hrejected Hno) as [_ [Hawaits [Hstate _]]].
  split; [reflexivity|]. split; [exact Hawaits | exact Hstate].
Defined.

(** C5 as stated fails: the draft with rating 5 and the ten characters
    "good book " has its rating in [1,5] and its text length in [10,1000],
    and is rejected, because the text is trimmed before it is measured.  So
    it is not true that every draft within the stated bounds passes. *)
Lemma submit_validation_counterexample :
  (JS.parseInt "5" = Some 5 /\
   String.length "good book " = 10%nat /\
   BookDetails.handleSubmitReview "b1"
     (Sample.pageOf (Some "A"%string) "5" "good book " false) =
   {| BookDetails.state := Sample.pageOf (Some "A"%string) "5" "good book " false;
      BookDetails.effects :=
        [BookDetails.ShowToast
           (BookDetails.Toast_ValidationError BookDetails.reviewText_too_small)];
      BookDetails.awaits := None |}) /\
  ~ (forall id st user_id n,
       BookDetails.user st = Some user_id ->
       JS.parseInt (BookDetails.rating st) = Some n -> 1 <= n <= 5 ->
       (10 <= String.length (BookDetails.reviewText st) <= 1000)%nat ->
       BookDetails.awaits (BookDetails.handleSubmitReview id st) <> None).
Proof.
  split; [repeat split|].
  intros Hclaim.
  apply (Hclaim "b1"%string
           (Sample.pageOf (Some "A"%string) "5" "good book " false)
           "A"%string 5).
  - reflexivity.
  - reflexivity.
  - lia.
  - simpl. lia.
  - reflexivity.
Qed.

(** ** Deleting a review *)

Lemma reviewControlsShown_iff (st : BookDetails.State) (review : Review.t) :
  BookDetails.reviewControlsShown st review = true <->
  BookDetails.user st = Some (Review.user_id review).
Proof.
  unfold BookDetails.reviewControlsShown.
  destruct (BookDetails.user st) as [u|].
  - rewrite String.eqb_eq. split; [intros -> | intros H; injection H as ->];
      reflexivity.
  - split; discriminate.
Qed.

Lemma handleSubmitReview_awaits_submit (id : string) (st : BookDetails.State)
    (call : BookDetails.Mutation) :
  BookDetails.awaits (BookDetails.handleSubmitReview id st) = Some call ->
  BookDetails.isSubmit call = true /\
  BookDetails.isSubmitting
    (BookDetails.state (BookDetails.handleSubmitReview id st)) = true.
Proof.
  unfold BookDetails.handleSubmitReview.
  destruct (BookDetails.user st) as [u|]; [|discriminate].
  destruct (BookDetails.reviewSchema_parse _ _) as [v | e]; [|discriminate].
  cbn [BookDetails.awaits BookDetails.state]. intros H. injection H as <-.
  split; [|reflexivity].
  destruct (BookDetails.editingReview _) as [editing|];
    [destruct (JS.truthy editing)|]; reflexivity.
Qed.

Lemma delete_review_keeps {P : Platform} (auth_uid : option string)
    (reviewId : string) (db : Store.DB) (review : Review.t) :
  In review (Store.reviews db) ->
  auth_uid <> Some (Review.user_id review) ->
  In review (Store.reviews (fst (Store.delete_review auth_uid reviewId db))).
Proof.
  intros Hin Hother. unfold Store.delete_review. cbn [fst Store.reviews].
  apply filter_In. split; [exact Hin|].
  apply negb_true_iff, andb_false_iff. right.
  unfold Store.delete_policy. destruct auth_uid as [uid|]; [|reflexivity].
  apply String.eqb_neq. congruence.
Qed.

Lemma select_reviews_In {P : Platform} (id : string) (db : Store.DB)
    (review : Review.t) :
  In review (Store.select_reviews id db) <->
  In review (Store.reviews db) /\ Review.book_id review = id.
Proof.
  unfold Store.select_reviews.
  now rewrite sort_In, filter_In, String.eqb_eq.
Qed.

(** C7, as the code has it.  The edit and delete controls of a review are
    rendered exactly when the viewer's identity is the review's [user_id],
    so through the page a delete is only ever issued by its author, for a
    review the page lists; the store's policy checks the same again.  The
    handler itself checks nothing and forwards the request.  When identity
    A does issue the delete of a review authored by B, the store skips the
    row, the review remains in the store and listed on the page, and the
    handler shows its success notice, the store having reported no error;
    had the store reported an error, the handler would show "Failed to
    delete review" and leave the page as it is. *)
Theorem delete_review_authorization {P : Platform} (id : string) :
  (forall st review,
     BookDetails.reviewControlsShown st review = true <->
     BookDetails.user st = Some (Review.user_id review)) /\
  (forall s s' reviewId,
     BookDetails.ui_step id s s' ->
     In (BookDetails.DeleteReview reviewId) (BookDetails.inflight s') ->
     In (BookDetails.DeleteReview reviewId) (BookDetails.inflight s) \/
     exists review,
       In review (BookDetails.reviews (BookDetails.page s)) /\
       Review.id review = reviewId /\
       BookDetails.user (BookDetails.page s) = Some (Review.user_id review)) /\
  (forall st db caller review,
     BookDetails.user st = Some caller ->
     Review.user_id review <> caller ->
     In review (Store.reviews db) ->
     In review (BookDetails.reviews st) ->
     Review.book_id review = id ->
     BookDetails.awaits (BookDetails.handleDeleteReview (Review.id review) st) =
       Some (BookDetails.DeleteReview (Review.id review)) /\
     let '(st', db', shown) :=
       BookDetails.deleteReview id (Review.id review) st db in
     In review (Store.reviews db') /\
     In review (BookDetails.reviews st') /\
     shown = [BookDetails.ShowToast
                (BookDetails.Toast_Success "Review deleted successfully");
              BookDetails.Refetch]) /\
  (forall st message,
     BookDetails.handleDeleteReview_resume (error message) st =
     (st, [BookDetails.ShowToast
             (BookDetails.Toast_Error "Failed to delete review")])).
Proof.
  split; [exact reviewControlsShown_iff|]. split; [|split].
  - intros s s' reviewId Hstep Hin.
    destruct Hstep; cbn [BookDetails.inflight BookDetails.dispatch] in Hin;
      try (left; exact Hin).
    + (* submit *)
      apply in_app_or in Hin. destruct Hin as [Hin | Hin]; [now left|].
      destruct (BookDetails.awaits (BookDetails.handleSubmitReview id _)) as [call|] eqn:E;
        [|contradiction].
      apply handleSubmitReview_awaits_submit in E. destruct E as [E _].
      destruct Hin as [-> | []]. discriminate E.
    + (* edit *)
      apply in_app_or in Hin. destruct Hin as [Hin | []]. now left.
    + (* delete *)
      apply in_app_or in Hin. destruct Hin as [Hin | Hin]; [now left|].
      destruct Hin as [Heq | []]. injection Heq as <-.
      right. exists review. repeat split; [assumption|].
      now apply reviewControlsShown_iff.
    + (* delete book *)
      apply in_app_or in Hin. destruct Hin as [Hin | Hin]; [now left|].
      unfold BookDetails.handleDeleteBook in Hin.
      destruct confirmed; cbn in Hin; [|contradiction].
      destruct Hin as [Heq | []]. discriminate.
    + (* resolve *)
      left. rewrite H. apply in_app_or in Hin. apply in_or_app.
      destruct Hin as [Hin | Hin]; [now left | right; now right].
  - intros st db caller review Huser Hother Hdb Hlisted Hbook.
    split; [reflexivity|].
    unfold BookDetails.deleteReview.
    cbn [BookDetails.handleDeleteReview BookDetails.awaits].
    assert (Hkept : In review
              (Store.reviews
                 (fst (Store.delete_review (BookDetails.user st)
                         (Review.id review) db)))).
    { apply delete_review_keeps; [exact Hdb|]. rewrite Huser. congruence. }
    unfold Store.delete_review in *. cbn [fst] in Hkept.
    cbn [BookDetails.handleDeleteReview_resume existsb orb].
    split; [exact Hkept|]. split; [|reflexivity].
    destruct (Store.select_book id _) as [b|];
      cbn [option_map BookDetails.fetchBookDetails_resume fst
           BookDetails.fetchBookDetails BookDetails.setIsLoading
           BookDetails.setReviews BookDetails.setBook BookDetails.reviews].
    + apply select_reviews_In. split; [exact Hkept | exact Hbook].
    + exact Hlisted.
  - reflexivity.
Qed.

(** Identity A asks for the deletion of the review that B wrote. *)
Lemma delete_review_authorization_witness :
  let '(st', db', shown) :=
    @BookDetails.deleteReview Sample.platform "b1" "r1"
      (Sample.pageOf (Some "A"%string) "5" "" false) Sample.db in
  In Sample.reviewByB (Store.reviews db') /\
  In Sample.reviewByB (BookDetails.reviews st') /\
  shown = [BookDetails.ShowToast
             (BookDetails.Toast_Success "Review deleted successfully");
           BookDetails.Refetch].
Proof.
  destruct (@delete_review_authorization Sample.platform "b1")
    as [_ [_ [Hforeign _]]].
  apply (Hforeign (Sample.pageOf (Some "A"%string) "5" "" false) Sample.db
                  "A"%string Sample.reviewByB).
  - reflexivity.
  - discriminate.
  - left. reflexivity.
  - right. left. reflexivity.
  - reflexivity.
Defined.

(** C7 as stated fails: the delete that A issues on B's review is neither
    refused by the handler nor reported as a failure.  So it is not true
    that a delete by another identity always ends in an error notice. *)
Lemma delete_review_authorization_counterexample :
  (BookDetails.user (Sample.pageOf (Some "A"%string) "5" "" false) =
     Some "A"%string /\
   Review.user_id Sample.reviewByB = "B"%string /\
   BookDetails.awaits
     (BookDetails.handleDeleteReview "r1"
        (Sample.pageOf (Some "A"%string) "5" "" false)) =
     Some (BookDetails.DeleteReview "r1") /\
   snd (@BookDetails.deleteReview Sample.platform "b1" "r1"
          (Sample.pageOf (Some "A"%string) "5" "" false) Sample.db) =
     [BookDetails.ShowToast
        (BookDetails.Toast_Success "Review deleted successfully");
      BookDetails.Refetch]) /\
  ~ (forall (P : Platform) id st db caller review,
       BookDetails.user st = Some caller ->
       Review.user_id review <> caller ->
       In review (Store.reviews db) ->
       In review (BookDetails.reviews st) ->
       Review.book_id review = id ->
       exists description,
         In (BookDetails.ShowToast (BookDetails.Toast_Error description))
            (snd (BookDetails.deleteReview id (Review.id review) st db))).
Proof.
  split; [repeat split|].
  intros Hclaim.
  destruct (Hclaim Sample.platform "b1"%string
              (Sample.pageOf (Some "A"%string) "5" "" false) Sample.db
              "A"%string Sample.reviewByB)
    as [description Hshown].
  - reflexivity.
  - discriminate.
  - left. reflexivity.
  - right. left. reflexivity.
  - reflexivity.
  - vm_compute in Hshown. destruct Hshown as [H | [H | []]]; discriminate H.
Qed.

(** ** One submission at a time *)

Lemma handleSubmitReview_settled (id : string) (st : BookDetails.State) :
  BookDetails.awaits (BookDetails.handleSubmitReview id st) = None ->
  BookDetails.isSubmitting st = false ->
  BookDetails.isSubmitting
    (BookDetails.state (BookDetails.handleSubmitReview id st)) = false.
Proof.
  unfold BookDetails.handleSubmitReview.
  destruct (BookDetails.user st) as [u|]; [|intros _ H; exact H].
  destruct (BookDetails.reviewSchema_parse _ _) as [v | e];
    [discriminate | reflexivity].
Qed.

Lemma handleSubmitReview_resume_settles (call : BookDetails.Mutation)
    (res : StoreResult) (st : BookDetails.State) :
  BookDetails.isSubmitting
    (fst (BookDetails.handleSubmitReview_resume call res st)) = false.
Proof. destruct res, call; reflexivity. Qed.

Lemma submitDisabled_false (st : BookDetails.State) :
  BookDetails.submitDisabled st = false -> BookDetails.isSubmitting st = false.
Proof.
  unfold BookDetails.submitDisabled. intros H.
  now apply orb_false_iff in H.
Qed.

Lemma count_snoc (l : list BookDetails.Mutation) (call : BookDetails.Mutation) :
  List.length (filter BookDetails.isSubmit (l ++ [call])) =
  (List.length (filter BookDetails.isSubmit l) +
   if BookDetails.isSubmit call then 1 else 0)%nat.
Proof.
  rewrite filter_app, length_app. simpl.
  destruct (BookDetails.isSubmit call); reflexivity.
Qed.

Lemma count_remove (before after : list BookDetails.Mutation)
    (call : BookDetails.Mutation) :
  List.length (filter BookDetails.isSubmit (before ++ call :: after)) =
  (List.length (filter BookDetails.isSubmit (before ++ after)) +
   if BookDetails.isSubmit call then 1 else 0)%nat.
Proof.
  rewrite !filter_app, !length_app. simpl.
  destruct (BookDetails.isSubmit call); simpl; lia.
Qed.

Lemma ui_step_gate (id : string) (s s' : BookDetails.Session) :
  BookDetails.ui_step id s s' -> Spec.gate s -> Spec.gate s'.
Proof.
  unfold Spec.gate, BookDetails.submitsInFlight.
  intros Hstep Hgate.
  destruct Hstep;
    cbn [BookDetails.page BookDetails.inflight BookDetails.dispatch
         BookDetails.handleDeleteReview BookDetails.handleEditReview
         BookDetails.awaits BookDetails.state];
    try exact Hgate.
  - (* submit *)
    apply submitDisabled_false in H1. rewrite H1 in Hgate.
    destruct (BookDetails.awaits (BookDetails.handleSubmitReview id _))
      as [call|] eqn:E.
    + destruct (handleSubmitReview_awaits_submit _ _ _ E) as [Hcall Hsub].
      rewrite count_snoc, Hcall, Hsub, Hgate. reflexivity.
    + rewrite app_nil_r, (handleSubmitReview_settled _ _ E H1). exact Hgate.
  - (* edit *)
    cbn. rewrite app_nil_r. exact Hgate.
  - (* delete *)
    rewrite count_snoc. cbn. rewrite Nat.add_0_r. exact Hgate.
  - (* delete book *)
    destruct confirmed; cbn.
    + rewrite count_snoc. cbn. rewrite Nat.add_0_r. exact Hgate.
    + rewrite app_nil_r. exact Hgate.
  - (* resolve *)
    rewrite H, count_remove in Hgate.
    destruct call; cbn [BookDetails.isSubmit BookDetails.resume] in *.
    + rewrite handleSubmitReview_resume_settles.
      destruct (BookDetails.isSubmitting (BookDetails.page s)); lia.
    + rewrite handleSubmitReview_resume_settles.
      destruct (BookDetails.isSubmitting (BookDetails.page s)); lia.
    + rewrite Nat.add_0_r in Hgate. destruct res; exact Hgate.
    + rewrite Nat.add_0_r in Hgate. destruct res; exact Hgate.
  - (* refetch answered *)
    destruct fetched as [[bookData [reviewsData|]]|]; exact Hgate.
Qed.

Lemma ui_run_gate (id : string) (s s' : BookDetails.Session) :
  BookDetails.ui_run id s s' -> Spec.gate s -> Spec.gate s'.
Proof.
  induction 1 as [|s1 s2 s3 _ IH Hstep]; intros Hgate.
  - exact Hgate.
  - eapply ui_step_gate; eauto.
Qed.

(** C6, as the code has it.  On a page driven through the controls it
    renders, starting with nothing in flight, at most one review submission
    is in flight at any time: one is in flight exactly while [isSubmitting]
    holds, and while it holds the submit control is disabled.  (The
    handlers carry no guard of their own, and deletions are not gated.) *)
Theorem single_submission_in_flight (id : string) (st : BookDetails.State)
    (s : BookDetails.Session) :
  BookDetails.isSubmitting st = false ->
  BookDetails.ui_run id (BookDetails.initial st) s ->
  (BookDetails.submitsInFlight s <= 1)%nat /\
  (BookDetails.isSubmitting (BookDetails.page s) = true <->
   BookDetails.submitsInFlight s = 1%nat) /\
  (BookDetails.isSubmitting (BookDetails.page s) = true ->
   BookDetails.submitDisabled (BookDetails.page s) = true).
Proof.
  intros Hidle Hrun.
  assert (Hgate : Spec.gate s).
  { apply (ui_run_gate id _ _ Hrun). unfold Spec.gate, BookDetails.submitsInFlight.
    cbn. now rewrite Hidle. }
  unfold Spec.gate in Hgate. rewrite Hgate.
  destruct (BookDetails.isSubmitting (BookDetails.page s)) eqn:E.
  - repeat split; auto. unfold BookDetails.submitDisabled. now rewrite E.
  - repeat split; auto; discriminate.
Qed.

(** Viewer A presses Submit on a valid draft: one submission is in flight
    and the control is disabled. *)
Lemma single_submission_in_flight_witness :
  let s := BookDetails.dispatch
             (BookDetails.handleSubmitReview "b1"
                (Sample.pageOf (Some "A"%string) "5" "Could not put it down!" false))
             (BookDetails.initial
                (Sample.pageOf (Some "A"%string) "5" "Could not put it down!" false)) in
  (BookDetails.submitsInFlight s <= 1)%nat /\
  (BookDetails.isSubmitting (BookDetails.page s) = true <->
   BookDetails.submitsInFlight s = 1%nat) /\
  (BookDetails.isSubmitting (BookDetails.page s) = true ->
   BookDetails.submitDisabled (BookDetails.page s) = true).
Proof.
  apply (single_submission_in_flight "b1"
           (Sample.pageOf (Some "A"%string) "5" "Could not put it down!" false)).
  - reflexivity.
  - eapply BookDetails.run_step; [apply BookDetails.run_nil|].
    apply BookDetails.ev_clickSubmit; reflexivity.
Defined.

(** C6 as stated fails.  Viewer A presses Submit and, while the insert is
    pending, presses Delete on an own review: both mutations are in flight
    together.  And the handlers, called in the Submitting state, issue
    further store calls instead of refusing.  So neither is it true that at
    most one mutation is ever in flight, nor that the submit handler
    refuses while submitting. *)
Lemma single_submission_in_flight_counterexample :
  (exists s,
     BookDetails.ui_run "b1"
       (BookDetails.initial
          (Sample.pageOf (Some "A"%string) "5" "Could not put it down!" false)) s /\
     BookDetails.isSubmitting (BookDetails.page s) = true /\
     BookDetails.inflight s =
       [BookDetails.InsertReview "b1" "A" 5 "Could not put it down!";
        BookDetails.DeleteReview "r2"]) /\
  BookDetails.awaits
    (BookDetails.handleSubmitReview "b1"
       (Sample.pageOf (Some "A"%string) "5" "Could not put it down!" true)) =
    Some (BookDetails.InsertReview "b1" "A" 5 "Could not put it down!") /\
  BookDetails.awaits
    (BookDetails.handleDeleteReview "r1"
       (Sample.pageOf (Some "A"%string) "5" "Could not put it down!" true)) =
    Some (BookDetails.DeleteReview "r1") /\
  ~ (forall id st s,
       BookDetails.isSubmitting st = false ->
       BookDetails.ui_run id (BookDetails.initial st) s ->
       (List.length (BookDetails.inflight s) <= 1)%nat) /\
  ~ (forall id st,
       BookDetails.isSubmitting st = true ->
       BookDetails.awaits (BookDetails.handleSubmitReview id st) = None).
Proof.
  assert (Hrun :
    BookDetails.ui_run "b1"
      (BookDetails.initial
         (Sample.pageOf (Some "A"%string) "5" "Could not put it down!" false))
      (BookDetails.mkSession
         (Sample.pageOf (Some "A"%string) "5" "Could not put it down!" true)
         [BookDetails.InsertReview "b1" "A" 5 "Could not put it down!";
          BookDetails.DeleteReview "r2"])).
  { set (s0 := BookDetails.initial
                  (Sample.pageOf (Some "A"%string) "5" "Could not put it down!" false)).
    set (s1 := BookDetails.mkSession
                 (Sample.pageOf (Some "A"%string) "5" "Could not put it down!" true)
                 [BookDetails.InsertReview "b1" "A" 5 "Could not put it down!"]).
    apply (BookDetails.run_step "b1" s0 s1).
    - apply (BookDetails.run_step "b1" s0 s0); [apply BookDetails.run_nil|].
      change (BookDetails.ui_step "b1" s0
                (BookDetails.dispatch
                   (BookDetails.handleSubmitReview "b1" (BookDetails.page s0)) s0)).
      apply BookDetails.ev_clickSubmit; reflexivity.
    - change (BookDetails.ui_step "b1" s1
                (BookDetails.dispatch
                   (BookDetails.handleDeleteReview (Review.id Sample.reviewByA)
                      (BookDetails.page s1)) s1)).
      apply BookDetails.ev_clickDelete.
      + reflexivity.
      + left. reflexivity.
      + reflexivity. }
  split; [|split; [reflexivity | split; [reflexivity | split]]].
  - eexists. split; [exact Hrun|]. split; reflexivity.
  - intros Hclaim.
    pose proof (Hclaim "b1"%string
                  (Sample.pageOf (Some "A"%string) "5" "Could not put it down!" false)
                  _ eq_refl Hrun) as Hle.
    simpl in Hle. lia.
  - intros Hclaim.
    specialize (Hclaim "b1"%string
                  (Sample.pageOf (Some "A"%string) "5" "Could not put it down!" true)
                  eq_refl).
    discriminate Hclaim.
Qed.

(** * Further properties of the pages *)

(** ** Numbers as text *)

Ltac eval_digit :=
  match goal with
  | |- context [JS.digitValue ?c] =>
      let v := eval vm_compute in (JS.digitValue c) in
      change (JS.digitValue c) with v; cbv iota beta
  end.

Lemma parseDigits_acc (d : Decimal.uint) (acc : positive) :
  JS.parseDigits (NilEmpty.string_of_uint d) (Some (Z.pos acc)) =
  Some (Z.pos (Pos.of_uint_acc d acc)).
Proof.
  revert acc; induction d; intros acc;
    cbn [NilEmpty.string_of_uint JS.parseDigits Pos.of_uint_acc];
    try reflexivity; eval_digit; rewrite <- IHd; do 2 f_equal; lia.
Qed.

Lemma parseDigits_zero (d : Decimal.uint) :
  JS.parseDigits (NilEmpty.string_of_uint d) (Some 0) =
  Some (Z.of_N (Pos.of_uint d)).
Proof.
  induction d; cbn [NilEmpty.string_of_uint JS.parseDigits Pos.of_uint];
    try reflexivity; eval_digit; try exact IHd;
    cbn [Z.of_N]; rewrite <- parseDigits_acc; reflexivity.
Qed.

Lemma parseDigits_start (d : Decimal.uint) :
  d <> Decimal.Nil ->
  JS.parseDigits (NilEmpty.string_of_uint d) None =
  JS.parseDigits (NilEmpty.string_of_uint d) (Some 0).
Proof. destruct d; intros H; [congruence | reflexivity ..]. Qed.

Lemma to_uint_nonnil (n : N) : N.to_uint n <> Decimal.Nil.
Proof.
  destruct n as [|p]; simpl; [discriminate | apply DecimalPos.Unsigned.to_uint_nonnil].
Qed.

Lemma digits_string (n : Z) :
  JS.digits n = NilEmpty.string_of_uint (N.to_uint (Z.to_N n)).
Proof.
  unfold JS.digits, NilZero.string_of_uint.
  pose proof (to_uint_nonnil (Z.to_N n)) as H.
  destruct (N.to_uint (Z.to_N n)); [congruence | reflexivity ..].
Qed.

Lemma parseDigits_digits (n : Z) :
  0 <= n -> JS.parseDigits (JS.digits n) None = Some n.
Proof.
  intros Hn. rewrite digits_string.
  rewrite parseDigits_start by apply to_uint_nonnil.
  rewrite parseDigits_zero.
  change (Pos.of_uint (N.to_uint (Z.to_N n))) with (N.of_uint (N.to_uint (Z.to_N n))).
  rewrite DecimalN.Unsigned.of_to. f_equal. lia.
Qed.

Lemma digits_head (n : Z) :
  exists c rest, JS.digits n = String c rest /\ Spec.isDigit c = true.
Proof.
  rewrite digits_string. pose proof (to_uint_nonnil (Z.to_N n)) as H.
  destruct (N.to_uint (Z.to_N n)); [congruence | ..];
    cbn [NilEmpty.string_of_uint]; eexists; eexists; split; reflexivity.
Qed.

Lemma parseInt_digit_head (c : ascii) (rest : string) :
  Spec.isDigit c = true ->
  JS.parseInt (String c rest) = JS.parseDigits (String c rest) None.
Proof.
  intros H.
  destruct c as [[] [] [] [] [] [] [] []];
    try (vm_compute in H; discriminate H); reflexivity.
Qed.

(** Printing an integer and parsing the text again gives the integer
    back: [parseInt(n.toString())] is [n]. *)
Lemma parseInt_toString (n : Z) : JS.parseInt (JS.toString n) = Some n.
Proof.
  unfold JS.toString. destruct (Z.ltb_spec n 0) as [Hneg | Hpos].
  - change (String.append "-" (JS.digits (- n)))
      with (String "-"%char (JS.digits (- n))).
    change (JS.parseInt (String "-"%char (JS.digits (- n))))
      with (option_map Z.opp (JS.parseDigits (JS.digits (- n)) None)).
    rewrite parseDigits_digits by lia. simpl. f_equal. lia.
  - destruct (digits_head n) as [c [rest [Hd Hc]]].
    rewrite Hd, (parseInt_digit_head c rest Hc), <- Hd.
    now apply parseDigits_digits.
Qed.

(** ** Facts about lists *)

Lemma existsb_eqb_In (x : string) (l : list string) :
  existsb (String.eqb x) l = true <-> In x l.
Proof.
  rewrite existsb_exists. split.
  - intros [y [Hy E]]. apply String.eqb_eq in E. now subst.
  - intros H. exists x. split; [exact H | apply String.eqb_refl].
Qed.

Local Abbreviation unique_from seen l :=
  (fold_left (fun seen x =>
                if existsb (String.eqb x) seen then seen else seen ++ [x])
             l seen).

Local Abbreviation fresh seen :=
  (fun y : string => negb (existsb (String.eqb y) seen)).

Lemma unique_from_In (l seen : list string) (x : string) :
  In x (unique_from seen l) <-> In x seen \/ In x l.
Proof.
  revert seen; induction l as [|y l IH]; intros seen; simpl.
  - tauto.
  - rewrite IH. destruct (existsb (String.eqb y) seen) eqn:E.
    + apply existsb_eqb_In in E. intuition (subst; auto).
    + rewrite in_app_iff. simpl. intuition (subst; auto).
Qed.

Lemma unique_from_NoDup (l seen : list string) :
  NoDup seen -> NoDup (unique_from seen l).
Proof.
  revert seen; induction l as [|y l IH]; intros seen Hseen; simpl.
  - exact Hseen.
  - apply IH. destruct (existsb (String.eqb y) seen) eqn:E; [exact Hseen|].
    apply NoDup_app; [exact Hseen | repeat constructor; intros [] |].
    intros x Hx [<- | []].
    apply existsb_eqb_In in Hx. congruence.
Qed.

Lemma unique_from_split (l seen : list string) :
  unique_from seen l = seen ++ filter (fresh seen) (JS.unique l).
Proof.
  unfold JS.unique. revert seen; induction l as [|x l IH]; intros seen.
  - simpl. now rewrite app_nil_r.
  - cbn [fold_left existsb app]. rewrite (IH [x]).
    rewrite filter_app, filter_filter_and. cbn [filter].
    destruct (existsb (String.eqb x) seen) eqn:E; cbn [negb app].
    + rewrite IH. f_equal. apply filter_ext. intros y.
      cbn [existsb]. rewrite orb_false_r.
      destruct (String.eqb_spec y x) as [-> | Hne]; cbn [negb andb];
        [now rewrite E | reflexivity].
    + rewrite IH, <- app_assoc. cbn [app]. do 2 f_equal.
      apply filter_ext. intros y.
      rewrite existsb_app. cbn [existsb]. rewrite !orb_false_r, negb_orb.
      apply andb_comm.
Qed.

(** X1. The genre options: each genre of the collection is offered, once,
    and nothing else is; the options are in first-seen order, so that for a
    collection made of one list of books followed by another, the options
    are those of the first followed by those of the second that are new. *)
Theorem genres_first_seen (st : Index.State) :
  NoDup (Index.genres st) /\
  (forall g, In g (Index.genres st) <->
             exists b : BookWithRatings, In b (Index.books st) /\ genre b = g) /\
  (forall st1 st2,
     Index.books st = Index.books st1 ++ Index.books st2 ->
     Index.genres st =
     Index.genres st1 ++
     filter (fun g => negb (existsb (String.eqb g) (Index.genres st1)))
            (Index.genres st2)).
Proof.
  unfold Index.genres. split; [|split].
  - apply unique_from_NoDup. constructor.
  - intros g. unfold JS.unique. rewrite unique_from_In, in_map_iff.
    split.
    + intros [[] | [b [E Hb]]]. now exists b.
    + intros [b [Hb E]]. right. now exists b.
  - intros st1 st2 ->. rewrite map_app.
    unfold JS.unique at 1. rewrite fold_left_app.
    apply unique_from_split.
Qed.

(** ** The catalog page: filters, order and pages *)

Lemma lower_truthy (s s' : string) :
  JS.toLowerCase s = JS.toLowerCase s' -> JS.truthy s = JS.truthy s'.
Proof. destruct s, s'; simpl; congruence. Qed.

(** X2. The search ignores the letter case of the term: two terms that
    differ only in case select the same books in the same order. *)
Theorem search_ignores_case {P : Platform} (books : list BookWithRatings)
    (term term' selectedGenre sortBy : string) :
  JS.toLowerCase term = JS.toLowerCase term' ->
  Index.filtered books term selectedGenre sortBy =
  Index.filtered books term' selectedGenre sortBy.
Proof.
  intros Hcase. unfold Index.filtered.
  rewrite (lower_truthy _ _ Hcase).
  destruct (JS.truthy term'); [|reflexivity].
  assert (Hfilter : filter (Index.matchesSearch term) books =
                    filter (Index.matchesSearch term') books).
  { apply filter_ext. intros b. unfold Index.matchesSearch. now rewrite Hcase. }
  now rewrite Hfilter.
Qed.

Lemma search_ignores_case_witness :
  @Index.filtered Sample.platform Sample.catalog "DUNE" "all" "title" =
  @Index.filtered Sample.platform Sample.catalog "dune" "all" "title".
Proof.
  apply (@search_ignores_case Sample.platform). reflexivity.
Defined.

Lemma insert_stable {A : Type} (compareFn : A -> A -> Q) (p : A -> bool)
    (x : A) (l : list A) :
  (forall a b, p a = true -> p b = true -> Qle_bool (compareFn a b) 0 = true) ->
  filter p (JS.insert compareFn x l) = filter p (x :: l).
Proof.
  intros Htie. induction l as [|y l IH]; [reflexivity|].
  cbn [JS.insert]. destruct (Qle_bool (compareFn x y) 0) eqn:E; [reflexivity|].
  cbn [filter] in *. rewrite IH.
  destruct (p x) eqn:Hx, (p y) eqn:Hy; try reflexivity.
  rewrite (Htie x y Hx Hy) in E. discriminate.
Qed.

Lemma sort_stable {A : Type} (compareFn : A -> A -> Q) (p : A -> bool)
    (l : list A) :
  (forall a b, p a = true -> p b = true -> Qle_bool (compareFn a b) 0 = true) ->
  filter p (JS.sort compareFn l) = filter p l.
Proof.
  intros Htie. induction l as [|x l IH]; [reflexivity|].
  cbn [JS.sort]. rewrite (insert_stable _ _ _ _ Htie).
  cbn [filter]. now rewrite IH.
Qed.

(** X3. The displayed collection is a rearrangement of the books that pass
    both filters: none is lost and none is repeated.  The sort is stable:
    the books of any class that the comparator does not tell apart stay in
    the order of the collection. *)
Theorem filtered_rearranges_stably {P : Platform}
    (books : list BookWithRatings) (searchTerm selectedGenre sortBy : string) :
  Permutation (Index.filtered books searchTerm selectedGenre sortBy)
              (Spec.passing books searchTerm selectedGenre) /\
  (forall tied : BookWithRatings -> bool,
     (forall a b, tied a = true -> tied b = true ->
                  Qle_bool (Index.compareFn sortBy a b) 0 = true) ->
     filter tied (Index.filtered books searchTerm selectedGenre sortBy) =
     filter tied (Spec.passing books searchTerm selectedGenre)).
Proof.
  rewrite filtered_passing. split.
  - apply sort_perm.
  - intros tied Htie. now apply sort_stable.
Qed.

(** Sorted by rating, the two unrated books of the shuffled sample,
    Solaris and Emma, keep the order in which they arrived. *)
Lemma filtered_rearranges_stably_witness :
  filter (fun b : BookWithRatings => Qeq_bool (averageRating b) 0)
         (@Index.filtered Sample.platform Sample.shuffled "" "all" "rating") =
  filter (fun b : BookWithRatings => Qeq_bool (averageRating b) 0)
         (@Spec.passing Sample.platform Sample.shuffled "" "all") /\
  map (fun b : BookWithRatings => title b)
      (filter (fun b : BookWithRatings => Qeq_bool (averageRating b) 0)
         (@Index.filtered Sample.platform Sample.shuffled "" "all" "rating")) =
    ["Solaris"; "Emma"]%string.
Proof.
  split; [|reflexivity].
  apply (proj2 (@filtered_rearranges_stably Sample.platform Sample.shuffled
                  "" "all" "rating")).
  intros a b Ha Hb. apply Qeq_bool_iff in Ha, Hb.
  change (Index.compareFn "rating" a b)
    with (averageRating b - averageRating a)%Q.
  apply Qle_bool_minus. rewrite Ha, Hb. apply Qle_refl.
Defined.

Lemma sort_sorted_id {A : Type} (compareFn : A -> A -> Q)
    (R : A -> A -> Prop) (l : list A) :
  (forall a b, R a b -> Qle_bool (compareFn a b) 0 = true) ->
  StronglySorted R l -> JS.sort compareFn l = l.
Proof.
  intros HR. induction 1 as [|x l Hs IH Hx]; [reflexivity|].
  cbn [JS.sort]. rewrite IH. destruct l as [|y l]; [reflexivity|].
  cbn [JS.insert]. rewrite HR; [reflexivity|].
  now inversion Hx.
Qed.

Lemma StronglySorted_map {A B : Type} (f : A -> B) (R : B -> B -> Prop)
    (l : list A) :
  StronglySorted (fun a b => R (f a) (f b)) l -> StronglySorted R (map f l).
Proof.
  induction 1 as [|x l Hs IH Hx]; simpl; constructor; [exact IH|].
  rewrite Forall_forall in *. intros y Hy. apply in_map_iff in Hy.
  destruct Hy as [z [<- Hz]]. now apply Hx.
Qed.

(** X4. With its initial settings (no search term, all genres, most recent
    first) the catalog page displays exactly what [fetchBooks] computed, in
    the order the store returned the books. *)
Theorem default_view_is_fetch_order {P : Platform} (db : Store.DB) :
  Index.filtered (Spec.fetchBooks db) "" "all" "recent" = Spec.fetchBooks db.
Proof.
  unfold Index.filtered. cbn [JS.truthy String.eqb negb].
  change (if (_ : bool) then ?x else ?y) with y.
  apply (sort_sorted_id _
           (fun a b : BookWithRatings =>
              getTime (created_at b) <= getTime (created_at a))).
  - intros a b Hab.
    change (Index.compareFn "recent" a b)
      with (inject_Z (getTime (created_at b) - getTime (created_at a))).
    rewrite Qle_bool_inject_Z. apply Z.leb_le. lia.
  - unfold Spec.fetchBooks, Aggregation.booksWithRatings.
    apply (StronglySorted_map _
             (fun a b : BookWithRatings =>
                getTime (created_at b) <= getTime (created_at a))).
    cbn [book]. unfold Store.select_books.
    apply (sort_descending_Z (fun b : Book => getTime (created_at b))).
Qed.

Lemma slice_nat {A : Type} (l : list A) (a b : nat) :
  (a <= b)%nat ->
  JS.slice l (Z.of_nat a) (Z.of_nat b) = firstn (b - a) (skipn a l).
Proof.
  intros Hab. unfold JS.slice, JS.clampIndex.
  destruct (Z.ltb_spec (Z.of_nat a) 0), (Z.ltb_spec (Z.of_nat b) 0); try lia.
  destruct (Nat.le_gt_cases (List.length l) a) as [Hout | Hin].
  - rewrite (skipn_all2 l Hout).
    replace (Z.to_nat (Z.min (Z.of_nat a) (Z.of_nat (List.length l))))
      with (List.length l) by lia.
    rewrite skipn_all. now rewrite !firstn_nil.
  - replace (Z.to_nat (Z.min (Z.of_nat a) (Z.of_nat (List.length l))))
      with a by lia.
    destruct (Nat.le_gt_cases b (List.length l)) as [Hb | Hb].
    + f_equal. lia.
    + rewrite !firstn_all2; [reflexivity | |]; rewrite length_skipn; lia.
Qed.

Lemma chunks_concat {A : Type} (m : nat) (l : list A) :
  (List.length l <= 5 * m)%nat ->
  List.concat (map (fun k => firstn 5 (skipn (5 * k) l)) (seq 0 m)) = l.
Proof.
  revert l; induction m as [|m IH]; intros l Hlen.
  - destruct l; simpl in *; [reflexivity | lia].
  - change (seq 0 (S m)) with (0%nat :: seq 1 m).
    rewrite <- seq_shift, map_cons, map_map, concat_cons.
    change (skipn (5 * 0) l) with l.
    transitivity (firstn 5 l ++ skipn 5 l); [|apply firstn_skipn].
    f_equal.
    transitivity (List.concat
                    (map (fun k => firstn 5 (skipn (5 * k) (skipn 5 l)))
                         (seq 0 m))).
    + f_equal. apply map_ext. intros k. rewrite skipn_skipn.
      do 2 f_equal. lia.
    + apply IH. rewrite length_skipn. lia.
Qed.

Lemma totalPages_nonneg (st : Index.State) : 0 <= Index.totalPages st.
Proof.
  unfold Index.totalPages, Index.ITEMS_PER_PAGE.
  pose proof (ceil_div_5_spec (Z.of_nat (List.length (Index.filteredBooks st)))).
  lia.
Qed.

(** X5. The pages partition the displayed collection: the slices of the
    numbered pages, one after the other, are the filtered books, each on
    exactly one page and in order. *)
Theorem pages_partition (st : Index.State) :
  List.concat (map (fun page => Index.paginatedBooks (Index.setCurrentPage page st))
              (Index.pageNumbers st)) =
  Index.filteredBooks st.
Proof.
  unfold Index.pageNumbers. rewrite map_map.
  transitivity (List.concat
                  (map (fun k => firstn 5 (skipn (5 * k) (Index.filteredBooks st)))
                       (seq 0 (Z.to_nat (Index.totalPages st))))).
  - f_equal. apply map_ext. intros k.
    unfold Index.paginatedBooks, Index.ITEMS_PER_PAGE.
    cbn [Index.setCurrentPage Index.currentPage Index.filteredBooks].
    replace ((Z.of_nat k + 1 - 1) * 5) with (Z.of_nat (5 * k)) by lia.
    replace ((Z.of_nat k + 1) * 5) with (Z.of_nat (5 * k + 5)) by lia.
    rewrite slice_nat by lia. f_equal. lia.
  - apply chunks_concat.
    pose proof (totalPages_nonneg st) as Hnn.
    unfold Index.totalPages, Index.ITEMS_PER_PAGE in *.
    pose proof (ceil_div_5_spec (Z.of_nat (List.length (Index.filteredBooks st)))).
    lia.
Qed.

Lemma paginated_nonempty (st : Index.State) :
  Index.filteredBooks st <> [] -> Spec.pageInRange st ->
  Index.paginatedBooks st <> [].
Proof.
  intros Hne [Hlow Hhigh] Hnil.
  assert (Hlen : Z.of_nat (List.length (Index.paginatedBooks st)) = 0)
    by now rewrite Hnil.
  unfold Index.paginatedBooks, Index.ITEMS_PER_PAGE in Hlen.
  rewrite slice_length in Hlen by lia.
  pose proof (ceil_div_5_spec (Z.of_nat (List.length (Index.filteredBooks st))))
    as Hceil.
  unfold Index.totalPages, Index.ITEMS_PER_PAGE in Hhigh.
  assert (0 < Z.of_nat (List.length (Index.filteredBooks st)))
    by (destruct (Index.filteredBooks st); simpl; [congruence | lia]).
  lia.
Qed.

Lemma pageNumbers_In (st : Index.State) (page : Z) :
  In page (Index.pageNumbers st) <-> 1 <= page <= Index.totalPages st.
Proof.
  unfold Index.pageNumbers. rewrite in_map_iff. split.
  - intros [i [<- Hi]]. apply in_seq in Hi. lia.
  - intros H. exists (Z.to_nat (page - 1)). split; [lia|].
    apply in_seq. lia.
Qed.

Lemma filterAndSortBooks_inv {P : Platform} (st : Index.State) :
  Spec.upToDate (Index.filterAndSortBooks st) /\
  Spec.pageInRange (Index.filterAndSortBooks st).
Proof.
  split; [reflexivity|]. unfold Spec.pageInRange. cbn. split; [lia | now left].
Qed.

Lemma ui_step_inv {P : Platform} (p p' : Index.Page) :
  Index.ui_step p p' ->
  Spec.upToDate (Index.view p) /\ Spec.pageInRange (Index.view p) ->
  Spec.upToDate (Index.view p') /\ Spec.pageInRange (Index.view p').
Proof.
  intros Hstep [Hup Hrange].
  destruct Hstep; cbn [Index.view].
  - unfold Index.setSearchTerm. destruct (String.eqb _ _); [now split|].
    apply filterAndSortBooks_inv.
  - unfold Index.setSelectedGenre. destruct (String.eqb _ _); [now split|].
    apply filterAndSortBooks_inv.
  - unfold Index.setSortBy. destruct (String.eqb _ _); [now split|].
    apply filterAndSortBooks_inv.
  - split; [exact Hup|]. destruct Hrange as [Hlow Hhigh].
    unfold Spec.pageInRange, Index.totalPages in *.
    cbn [Index.setCurrentPage Index.currentPage Index.filteredBooks] in *. lia.
  - split; [exact Hup|]. destruct Hrange as [Hlow Hhigh].
    unfold Index.paginationShown in H.
    apply andb_true_iff in H. destruct H as [_ Hmany]. apply Z.ltb_lt in Hmany.
    unfold Spec.pageInRange, Index.totalPages in *.
    cbn [Index.setCurrentPage Index.currentPage Index.filteredBooks] in *. lia.
  - split; [exact Hup|]. apply pageNumbers_In in H0.
    unfold Spec.pageInRange, Index.totalPages in *.
    cbn [Index.setCurrentPage Index.currentPage Index.filteredBooks] in *. lia.
  - unfold Index.setBooks. apply filterAndSortBooks_inv.
  - now split.
Qed.

(** X6. However the catalog page is used (searching, choosing a genre or
    a sort key, paging with the buttons that are rendered and enabled,
    books arriving), it displays what its inputs select, and the current
    page is page 1 or a page that exists; so whenever some book matches,
    the page shown is not empty. *)
Theorem catalog_page_in_range {P : Platform} (p : Index.Page) :
  Index.ui_run Index.initial p ->
  Spec.upToDate (Index.view p) /\
  Spec.pageInRange (Index.view p) /\
  (Index.filteredBooks (Index.view p) <> [] ->
   Index.paginatedBooks (Index.view p) <> []).
Proof.
  intros Hrun.
  assert (Hinv : Spec.upToDate (Index.view p) /\ Spec.pageInRange (Index.view p)).
  { remember Index.initial as p0 eqn:E.
    induction Hrun as [p1|p1 p2 p3 _ IH Hstep].
    - subst p1. split; [reflexivity|].
      unfold Spec.pageInRange. cbn. split; [lia | now left].
    - apply (ui_step_inv p2 p3 Hstep). now apply IH. }
  destruct Hinv as [Hup Hrange]. repeat split; try assumption.
  - apply Hrange.
  - apply Hrange.
  - intros Hne. now apply paginated_nonempty.
Qed.

(** Books arrive, then the viewer searches for "e". *)
Lemma catalog_page_in_range_witness :
  @Spec.upToDate Sample.platform
    (@Index.setSearchTerm Sample.platform "e"
       (@Index.setBooks Sample.platform Sample.catalog (Index.view Index.initial))) /\
  Spec.pageInRange
    (@Index.setSearchTerm Sample.platform "e"
       (@Index.setBooks Sample.platform Sample.catalog (Index.view Index.initial))) /\
  Index.paginatedBooks
    (@Index.setSearchTerm Sample.platform "e"
       (@Index.setBooks Sample.platform Sample.catalog (Index.view Index.initial)))
  <> [].
Proof.
  destruct (@catalog_page_in_range Sample.platform
              (Index.mkPage
                 (@Index.setSearchTerm Sample.platform "e"
                    (@Index.setBooks Sample.platform Sample.catalog
                       (Index.view Index.initial)))
                 false)) as [Hup [Hrange Hshown]].
  - eapply Index.run_step.
    + eapply Index.run_step; [apply Index.run_nil|].
      apply (@Index.ev_fetched Sample.platform Index.initial
               [Sample.dune; Sample.emma; Sample.solaris] Sample.ratings).
    + apply (@Index.ev_search Sample.platform
               (Index.mkPage
                  (@Index.setBooks Sample.platform Sample.catalog
                     (Index.view Index.initial))
                  false)
               "e"%string).
  - split; [exact Hup|]. split; [exact Hrange|].
    apply Hshown. vm_compute. discriminate.
Defined.

(** X7. Every genre the selector offers selects something: with an empty
    search box, choosing an offered genre leaves a displayed collection and
    a first page that are not empty, and, unless the genre is spelled
    "all", every displayed book is of that genre. *)
Theorem offered_genre_selects_books {P : Platform} (st : Index.State)
    (g : string) :
  In g (Index.genres st) ->
  Index.searchTerm st = EmptyString ->
  g <> Index.selectedGenre st ->
  Index.filteredBooks (Index.setSelectedGenre g st) <> [] /\
  Index.paginatedBooks (Index.setSelectedGenre g st) <> [] /\
  (g <> "all"%string ->
   forall b : BookWithRatings,
     In b (Index.filteredBooks (Index.setSelectedGenre g st)) -> genre b = g).
Proof.
  intros Hg Hsearch Hnew.
  unfold Index.setSelectedGenre. apply String.eqb_neq in Hnew. rewrite Hnew.
  unfold Index.genres, JS.unique in Hg. apply unique_from_In in Hg.
  destruct Hg as [[] | Hg]. apply in_map_iff in Hg. destruct Hg as [b [Hb Hin]].
  assert (Hmember : forall x : BookWithRatings,
            In x (Index.filteredBooks
                    (Index.filterAndSortBooks
                       {| Index.books := Index.books st;
                          Index.filteredBooks := Index.filteredBooks st;
                          Index.searchTerm := Index.searchTerm st;
                          Index.selectedGenre := g;
                          Index.sortBy := Index.sortBy st;
                          Index.currentPage := Index.currentPage st |})) <->
            In x (Index.books st) /\
            (String.eqb g "all" || String.eqb (genre x) g)%bool = true).
  { intros x. cbn [Index.filterAndSortBooks Index.filteredBooks Index.books
                   Index.searchTerm Index.selectedGenre Index.sortBy].
    rewrite filtered_passing, sort_In. unfold Spec.passing.
    rewrite filter_In. unfold Spec.passes. rewrite Hsearch. reflexivity. }
  assert (Hne : Index.filteredBooks
                  (Index.filterAndSortBooks
                     {| Index.books := Index.books st;
                        Index.filteredBooks := Index.filteredBooks st;
                        Index.searchTerm := Index.searchTerm st;
                        Index.selectedGenre := g;
                        Index.sortBy := Index.sortBy st;
                        Index.currentPage := Index.currentPage st |}) <> []).
  { intros Hnil. assert (Hb' : In b []).
    { rewrite <- Hnil. apply Hmember. split; [exact Hin|].
      rewrite Hb, String.eqb_refl. apply orb_true_r. }
    exact Hb'. }
  split; [exact Hne|]. split.
  - apply paginated_nonempty; [exact Hne|]. apply filterAndSortBooks_inv.
  - intros Hall x Hx. apply Hmember in Hx. destruct Hx as [_ Hx].
    apply String.eqb_neq in Hall. rewrite Hall in Hx. now apply String.eqb_eq.
Qed.

Lemma offered_genre_selects_books_witness :
  Index.filteredBooks
    (@Index.setSelectedGenre Sample.platform "Fiction"
       (Sample.view "" "all" "recent" 1)) <> [] /\
  Index.paginatedBooks
    (@Index.setSelectedGenre Sample.platform "Fiction"
       (Sample.view "" "all" "recent" 1)) <> [] /\
  genre Sample.emmaRated = "Fiction"%string.
Proof.
  destruct (@offered_genre_selects_books Sample.platform
              (Sample.view "" "all" "recent" 1) "Fiction"%string)
    as [Hne [Hpage Hgenre]].
  - vm_compute. right. left. reflexivity.
  - reflexivity.
  - discriminate.
  - split; [exact Hne|]. split; [exact Hpage|].
    apply Hgenre; [discriminate|]. vm_compute. left. reflexivity.
Defined.

(** ** Trimming *)

Lemma trimStart_first (s : string) (c : ascii) :
  Spec.firstChar (JS.trimStart s) = Some c -> JS.isWhiteSpace c = false.
Proof.
  induction s as [|a s IH]; simpl; [discriminate|].
  destruct (JS.isWhiteSpace a) eqn:E; [exact IH|].
  simpl. intros H. injection H as <-. exact E.
Qed.

Lemma trimEnd_last (s : string) (c : ascii) :
  Spec.lastChar (JS.trimEnd s) = Some c -> JS.isWhiteSpace c = false.
Proof.
  induction s as [|a s IH]; simpl; [discriminate|].
  destruct (JS.trimEnd s) as [|b r] eqn:E.
  - destruct (JS.isWhiteSpace a) eqn:Ea; simpl; [discriminate|].
    intros H. injection H as <-. exact Ea.
  - exact IH.
Qed.

Lemma trimEnd_first (s : string) (c : ascii) :
  Spec.firstChar s = Some c -> JS.isWhiteSpace c = false ->
  Spec.firstChar (JS.trimEnd s) = Some c.
Proof.
  destruct s as [|a s]; simpl; [discriminate|].
  intros H Hc. injection H as ->.
  destruct (JS.trimEnd s); [now rewrite Hc | reflexivity].
Qed.

Lemma trim_noEdgeSpace (s : string) : Spec.noEdgeSpace (JS.trim s).
Proof.
  unfold Spec.noEdgeSpace, JS.trim. split; [|apply trimEnd_last].
  intros c Hc.
  destruct (JS.trimStart s) as [|a t] eqn:E; [discriminate Hc|].
  assert (Ha : JS.isWhiteSpace a = false)
    by (apply (trimStart_first s); now rewrite E).
  rewrite (trimEnd_first (String a t) a eq_refl Ha) in Hc.
  injection Hc as <-. exact Ha.
Qed.

Lemma trimEnd_id (s : string) :
  (forall c, Spec.lastChar s = Some c -> JS.isWhiteSpace c = false) ->
  JS.trimEnd s = s.
Proof.
  induction s as [|a s IH]; intros Hlast; [reflexivity|].
  cbn [JS.trimEnd]. destruct s as [|b s].
  - cbn [JS.trimEnd]. now rewrite (Hlast a eq_refl).
  - rewrite IH; [reflexivity|]. intros c Hc. apply Hlast. exact Hc.
Qed.

Lemma trim_id (s : string) : Spec.noEdgeSpace s -> JS.trim s = s.
Proof.
  intros [Hfirst Hlast]. unfold JS.trim.
  assert (Hstart : JS.trimStart s = s).
  { destruct s as [|a s]; [reflexivity|].
    cbn [JS.trimStart]. now rewrite (Hfirst a eq_refl). }
  rewrite Hstart. now apply trimEnd_id.
Qed.

Lemma fold_right_add_perm (l l' : list Z) :
  Permutation l l' -> fold_right Z.add 0 l = fold_right Z.add 0 l'.
Proof. induction 1; simpl; lia. Qed.

Lemma filter_map_comm {A B : Type} (f : A -> B) (p : B -> bool) (l : list A) :
  filter p (map f l) = map f (filter (fun x => p (f x)) l).
Proof.
  induction l as [|x l IH]; simpl; [reflexivity|].
  destruct (p (f x)); simpl; now rewrite IH.
Qed.

Lemma renderTenths_head (n : Z) :
  exists c rest, JS.renderTenths n = String c rest /\ Spec.isDigit c = true.
Proof.
  unfold JS.renderTenths. destruct (digits_head (n / 10)) as [c [rest [-> Hc]]].
  cbn [String.append]. now eexists; eexists.
Qed.

Lemma toFixed1_not_words (x : Q) :
  (0 <= x)%Q -> JS.toFixed1 x <> "No ratings"%string.
Proof.
  intros Hx. unfold JS.toFixed1. apply Qle_bool_iff in Hx. rewrite Hx.
  destruct (renderTenths_head (JS.nearestTenth x)) as [c [rest [-> Hc]]].
  intros H. injection H as -> _. vm_compute in Hc. discriminate.
Qed.

(** ** The card and the book page *)

Lemma ratings_valid_filter (reviewsData rs : list ReviewRating) (b : Book) :
  Forall (fun r => Spec.validRating (rating r)) reviewsData ->
  rs = Aggregation.bookReviews reviewsData b ->
  Forall (fun r => Spec.validRating (rating r)) rs.
Proof. intros H ->. now apply Forall_filter. Qed.

(** X8. On a card the two texts agree: with the store's ratings (1 to 5),
    the card reads "No ratings" exactly when its review count is 0. *)
Theorem card_no_ratings_iff_no_reviews
    (booksData : list Book) (reviewsData : list ReviewRating)
    (w : BookWithRatings) :
  Forall (fun r => Spec.validRating (rating r)) reviewsData ->
  In w (Aggregation.booksWithRatings booksData reviewsData) ->
  (BookCard.render w = "No ratings"%string <-> reviewCount w = 0%nat).
Proof.
  intros Hvalid Hw. unfold Aggregation.booksWithRatings in Hw.
  apply in_map_iff in Hw. destruct Hw as [b [<- _]].
  unfold BookCard.render. cbn [averageRating reviewCount].
  set (rs := Aggregation.bookReviews reviewsData b).
  assert (Hrs : Forall (fun r => Spec.validRating (rating r)) rs)
    by now apply (ratings_valid_filter reviewsData rs b).
  destruct rs as [|r rs'] eqn:E.
  - split; reflexivity.
  - split; [|discriminate]. intros Hno. exfalso.
    assert (Hpos : (0 < Aggregation.avgRating (r :: rs'))%Q).
    { unfold Aggregation.avgRating.
      change (0 <? List.length (r :: rs'))%nat with true. cbv iota.
      apply mean_positive; [discriminate | exact Hrs]. }
    unfold BookCard.ratingText in Hno.
    destruct (Qle_bool (Aggregation.avgRating (r :: rs')) 0) eqn:Hle.
    + apply Qle_bool_iff in Hle. exact (Qlt_not_le _ _ Hpos Hle).
    + cbn [negb] in Hno. revert Hno. apply toFixed1_not_words.
      now apply Qlt_le_weak.
Qed.

Lemma card_no_ratings_iff_no_reviews_witness :
  (BookCard.render Sample.emmaRated = "No ratings"%string <->
   reviewCount Sample.emmaRated = 0%nat) /\
  (BookCard.render Sample.duneRated = "No ratings"%string <->
   reviewCount Sample.duneRated = 0%nat).
Proof.
  assert (Hvalid : Forall (fun r => Spec.validRating (rating r)) Sample.ratings)
    by (repeat constructor; unfold Spec.validRating; simpl; lia).
  split.
  - apply (card_no_ratings_iff_no_reviews
             [Sample.dune; Sample.emma; Sample.solaris] Sample.ratings
             Sample.emmaRated Hvalid).
    right. left. reflexivity.
  - apply (card_no_ratings_iff_no_reviews
             [Sample.dune; Sample.emma; Sample.solaris] Sample.ratings
             Sample.duneRated Hvalid).
    left. reflexivity.
Defined.

Lemma page_reviews_of_card {P : Platform} (db : Store.DB) (b : Book) :
  Permutation
    (map (fun r => mkReviewRating (Review.book_id r) (Review.rating r))
         (Store.select_reviews (id b) db))
    (Aggregation.bookReviews (Store.select_ratings db) b).
Proof.
  unfold Aggregation.bookReviews, Store.select_ratings, Store.select_reviews.
  rewrite filter_map_comm. cbn [book_id].
  apply Permutation_map, sort_perm.
Qed.

(** X9. The catalog card of a book and the header of its page, computed
    from the same store, agree: they count the same reviews, and when there
    is at least one review (ratings being 1 to 5) they print the same
    rating text. *)
Theorem card_and_header_agree {P : Platform} (db : Store.DB)
    (w : BookWithRatings) (st : BookDetails.State) :
  In w (Spec.fetchBooks db) ->
  BookDetails.reviews st = Store.select_reviews (id w) db ->
  reviewCount w = List.length (BookDetails.reviews st) /\
  (Forall (fun r => Spec.validRating (Review.rating r)) (Store.reviews db) ->
   BookDetails.reviews st <> [] ->
   BookCard.render w = BookDetails.averageRating st).
Proof.
  intros Hw Hreviews. unfold Spec.fetchBooks, Aggregation.booksWithRatings in Hw.
  apply in_map_iff in Hw. destruct Hw as [b [<- _]]. cbn [book] in Hreviews.
  cbn [reviewCount averageRating book]. unfold BookCard.render.
  cbn [averageRating].
  pose proof (page_reviews_of_card db b) as Hperm. rewrite <- Hreviews in Hperm.
  set (rs := Aggregation.bookReviews (Store.select_ratings db) b) in *.
  assert (Hlen : List.length rs = List.length (BookDetails.reviews st)).
  { rewrite <- (Permutation_length Hperm). apply length_map. }
  assert (Hsum : JS.reduce_sum rating rs =
                 JS.reduce_sum Review.rating (BookDetails.reviews st)).
  { rewrite !reduce_sum_fold_right.
    rewrite <- (fold_right_add_perm _ _ (Permutation_map rating Hperm)).
    now rewrite map_map. }
  split; [exact Hlen|]. intros Hvalid Hne.
  unfold BookDetails.averageRating, Aggregation.avgRating, BookCard.ratingText.
  rewrite Hlen, Hsum.
  assert (Hpage : Forall (fun r => Spec.validRating (Review.rating r))
                         (BookDetails.reviews st)).
  { rewrite Hreviews. rewrite Forall_forall in *. intros r Hr.
    apply select_reviews_In in Hr. now apply Hvalid. }
  pose proof (mean_positive Review.rating (BookDetails.reviews st) Hne Hpage)
    as Hpos.
  destruct (BookDetails.reviews st) as [|r rest]; [congruence|].
  change (0 <? List.length (r :: rest))%nat with true. cbv iota.
  destruct (Qle_bool _ 0) eqn:Hle; [|reflexivity].
  apply Qle_bool_iff in Hle. exfalso. exact (Qlt_not_le _ _ Hpos Hle).
Qed.

Lemma card_and_header_agree_witness :
  reviewCount Sample.duneRated =
    List.length (BookDetails.reviews (Sample.pageOf (Some "A"%string) "5" "" false)) /\
  BookCard.render Sample.duneRated =
    BookDetails.averageRating (Sample.pageOf (Some "A"%string) "5" "" false).
Proof.
  destruct (@card_and_header_agree Sample.platform Sample.db Sample.duneRated
              (Sample.pageOf (Some "A"%string) "5" "" false))
    as [Hcount Htext].
  - vm_compute. right. right. left. reflexivity.
  - reflexivity.
  - split; [exact Hcount|]. apply Htext.
    + repeat constructor; unfold Spec.validRating; simpl; lia.
    + discriminate.
Defined.

(** ** The review form *)

Lemma setIsSubmitting_back (st : BookDetails.State) :
  BookDetails.isSubmitting st = false ->
  BookDetails.setIsSubmitting false (BookDetails.setIsSubmitting true st) = st.
Proof. destruct st. simpl. now intros ->. Qed.

Lemma handleSubmitReview_awaits_state (id : string) (st : BookDetails.State)
    (call : BookDetails.Mutation) :
  BookDetails.awaits (BookDetails.handleSubmitReview id st) = Some call ->
  BookDetails.state (BookDetails.handleSubmitReview id st) =
    BookDetails.setIsSubmitting true st /\
  BookDetails.effects (BookDetails.handleSubmitReview id st) = [].
Proof.
  unfold BookDetails.handleSubmitReview.
  destruct (BookDetails.user st) as [u|]; [|discriminate].
  destruct (BookDetails.reviewSchema_parse _ _) as [v | e]; [|discriminate].
  intros _. split; reflexivity.
Qed.

(** X10. A submission that the store refuses loses nothing: when the
    awaited call resolves to an error, the page is exactly as it was before
    Submit was pressed (draft, edited review, not submitting), an error
    notice is shown and no refetch is asked for. *)
Theorem failed_submit_restores_page (id : string) (st : BookDetails.State)
    (call : BookDetails.Mutation) (message : string) :
  BookDetails.isSubmitting st = false ->
  BookDetails.awaits (BookDetails.handleSubmitReview id st) = Some call ->
  BookDetails.resume call (error message)
    (BookDetails.state (BookDetails.handleSubmitReview id st)) =
  (st, [BookDetails.ShowToast
          (BookDetails.Toast_Error
             (if JS.truthy message then message
              else "Failed to submit review"%string))]).
Proof.
  intros Hidle Hcall.
  destruct (handleSubmitReview_awaits_state id st call Hcall) as [-> _].
  destruct (handleSubmitReview_awaits_submit id st call Hcall) as [Hsubmit _].
  destruct call; try discriminate Hsubmit;
    cbn [BookDetails.resume BookDetails.handleSubmitReview_resume];
    now rewrite setIsSubmitting_back.
Qed.

Lemma failed_submit_restores_page_witness :
  BookDetails.resume
    (BookDetails.InsertReview "b1" "A" 5 "Could not put it down!")
    (error "network")
    (BookDetails.state
       (BookDetails.handleSubmitReview "b1"
          (Sample.pageOf (Some "A"%string) "5" "Could not put it down!" false))) =
  (Sample.pageOf (Some "A"%string) "5" "Could not put it down!" false,
   [BookDetails.ShowToast (BookDetails.Toast_Error "network")]).
Proof.
  apply (failed_submit_restores_page "b1"
           (Sample.pageOf (Some "A"%string) "5" "Could not put it down!" false)
           (BookDetails.InsertReview "b1" "A" 5 "Could not put it down!")
           "network"); reflexivity.
Defined.



(** X12. Whatever the review form sends satisfies the store's rules for
    it: the rating passes the table's check (1 to 5), the text is between
    10 and 1000 characters long and neither starts nor ends with white
    space; a create carries the page's book and the session's identity, so
    that it passes the insert policy, and an update addresses the review
    being edited. *)
Theorem submitted_review_is_well_formed (id : string) (st : BookDetails.State)
    (call : BookDetails.Mutation) :
  BookDetails.awaits (BookDetails.handleSubmitReview id st) = Some call ->
  match call with
  | BookDetails.InsertReview book_id user_id rating review_text =>
      book_id = id /\
      Store.insert_review_policy (BookDetails.user st) user_id = true /\
      Store.rating_check rating = true /\
      (10 <= String.length review_text <= 1000)%nat /\
      Spec.noEdgeSpace review_text
  | BookDetails.UpdateReview reviewId rating review_text =>
      BookDetails.editingReview st = Some reviewId /\
      Store.rating_check rating = true /\
      (10 <= String.length review_text <= 1000)%nat /\
      Spec.noEdgeSpace review_text
  | _ => False
  end.
Proof.
  unfold BookDetails.handleSubmitReview.
  destruct st as [u b rs r t editing loading submitting].
  cbn [BookDetails.user BookDetails.rating BookDetails.reviewText
       BookDetails.editingReview BookDetails.setIsSubmitting].
  destruct u as [u|]; [|discriminate].
  destruct (BookDetails.reviewSchema_parse (JS.parseInt r) t) as [v | e] eqn:Ev;
    [|discriminate].
  apply reviewSchema_parse_ok in Ev. destruct Ev as [n [_ [Hn [Hlen ->]]]].
  cbn [BookDetails.awaits BookDetails.validated_rating
       BookDetails.validated_reviewText].
  assert (Hcheck : Store.rating_check n = true).
  { unfold Store.rating_check. apply andb_true_iff. split; apply Z.leb_le; lia. }
  pose proof (trim_noEdgeSpace t) as Htrim.
  destruct editing as [editing|]; [destruct (JS.truthy editing)|];
    intros H; injection H as <-; repeat split;
    try assumption; try lia; try apply Htrim;
    cbn [Store.insert_review_policy]; apply String.eqb_refl.
Qed.

Lemma submitted_review_is_well_formed_witness :
  Store.insert_review_policy (Some "A"%string) "A" = true /\
  Store.rating_check 5 = true /\
  Spec.noEdgeSpace "Could not put it down!".
Proof.
  pose proof (submitted_review_is_well_formed "b1"
                (Sample.pageOf (Some "A"%string) "5" "  Could not put it down! "
                               false)
                (BookDetails.InsertReview "b1" "A" 5 "Could not put it down!")
                eq_refl) as H.
  cbn beta iota in H. destruct H as [_ [Hpolicy [Hcheck [_ Htrim]]]].
  split; [exact Hpolicy|]. split; [exact Hcheck | exact Htrim].
Defined.

(** X13. Editing a review and submitting it unchanged sends the review
    back as it is stored: for a signed-in viewer and a stored review with a
    rating from 1 to 5 and a text of 10 to 1000 characters without white
    space at its ends, Edit followed by Submit issues the update of that
    review with that rating and that text. *)
Theorem edit_then_submit_round_trip (id : string) (st : BookDetails.State)
    (user_id : string) (review : Review.t) :
  BookDetails.user st = Some user_id ->
  JS.truthy (Review.id review) = true ->
  Spec.validRating (Review.rating review) ->
  (10 <= String.length (Review.review_text review) <= 1000)%nat ->
  Spec.noEdgeSpace (Review.review_text review) ->
  BookDetails.awaits
    (BookDetails.handleSubmitReview id
       (BookDetails.state (BookDetails.handleEditReview review st))) =
  Some (BookDetails.UpdateReview (Review.id review) (Review.rating review)
                                 (Review.review_text review)).
Proof.
  intros Huser Hid Hrating Hlen Hedge.
  unfold BookDetails.handleSubmitReview, BookDetails.handleEditReview.
  cbn [BookDetails.state BookDetails.user BookDetails.rating
       BookDetails.reviewText BookDetails.editingReview
       BookDetails.setReviewText BookDetails.setRating
       BookDetails.setEditingReview BookDetails.setIsSubmitting].
  rewrite Huser, parseInt_toString.
  assert (Hok : BookDetails.reviewSchema_parse (Some (Review.rating review))
                  (Review.review_text review) =
                inl (BookDetails.mkValidated (Review.rating review)
                       (JS.trim (Review.review_text review)))).
  { apply reviewSchema_parse_ok. exists (Review.rating review).
    rewrite (trim_id _ Hedge). repeat split; try apply Hrating; lia. }
  rewrite Hok, Hid. cbn [BookDetails.awaits BookDetails.validated_rating
                          BookDetails.validated_reviewText].
  now rewrite (trim_id _ Hedge).
Qed.

Lemma edit_then_submit_round_trip_witness :
  BookDetails.awaits
    (BookDetails.handleSubmitReview "b1"
       (BookDetails.state
          (BookDetails.handleEditReview Sample.reviewByA
             (Sample.pageOf (Some "A"%string) "5" "" false)))) =
  Some (BookDetails.UpdateReview "r2" 5 "Could not put it down!").
Proof.
  apply (edit_then_submit_round_trip "b1"
           (Sample.pageOf (Some "A"%string) "5" "" false) "A" Sample.reviewByA).
  - reflexivity.
  - reflexivity.
  - unfold Spec.validRating. simpl. lia.
  - simpl. lia.
  - split; intros c Hc; vm_compute in Hc; injection Hc as <-; reflexivity.
Defined.

(** X14. The author's delete works: when the viewer who wrote a review
    deletes it, the store drops that review and nothing else (reviews with
    another identity and all books stay), the success notice is shown, and
    after the refetch the page, if its book still exists, lists the book's
    remaining reviews without the deleted one. *)
Theorem delete_by_author {P : Platform} (id : string)
    (st : BookDetails.State) (db : Store.DB) (review : Review.t) :
  BookDetails.user st = Some (Review.user_id review) ->
  In review (Store.reviews db) ->
  let '(st', db', shown) :=
    BookDetails.deleteReview id (Review.id review) st db in
  ~ In review (Store.reviews db') /\
  (forall r, In r (Store.reviews db) -> Review.id r <> Review.id review ->
             In r (Store.reviews db')) /\
  Store.books db' = Store.books db /\
  shown = [BookDetails.ShowToast
             (BookDetails.Toast_Success "Review deleted successfully");
           BookDetails.Refetch] /\
  (Store.select_book id db <> None ->
   ~ In review (BookDetails.reviews st') /\
   (forall r, In r (Store.reviews db) -> Review.book_id r = id ->
              Review.id r <> Review.id review ->
              In r (BookDetails.reviews st'))).
Proof.
  intros Huser Hin. unfold BookDetails.deleteReview.
  cbn [BookDetails.handleDeleteReview BookDetails.awaits].
  unfold Store.delete_review.
  cbn [BookDetails.handleDeleteReview_resume existsb orb].
  set (db' := {| Store.books := Store.books db;
                 Store.reviews := filter _ (Store.reviews db) |}).
  assert (Hgone : ~ In review (Store.reviews db')).
  { unfold db'. cbn [Store.reviews]. rewrite filter_In. intros [_ Hkeep].
    rewrite Huser in Hkeep. cbn [Store.delete_policy] in Hkeep.
    now rewrite !String.eqb_refl in Hkeep. }
  assert (Hstay : forall r, In r (Store.reviews db) ->
                            Review.id r <> Review.id review ->
                            In r (Store.reviews db')).
  { intros r Hr Hne. unfold db'. cbn [Store.reviews]. apply filter_In.
    split; [exact Hr|]. apply String.eqb_neq in Hne. now rewrite Hne. }
  split; [exact Hgone|]. split; [exact Hstay|]. split; [reflexivity|].
  split; [reflexivity|]. intros Hbook.
  change (Store.select_book id db') with (Store.select_book id db).
  destruct (Store.select_book id db) as [b|]; [|congruence].
  cbn [option_map BookDetails.fetchBookDetails_resume fst
       BookDetails.fetchBookDetails BookDetails.setIsLoading
       BookDetails.setReviews BookDetails.setBook BookDetails.reviews].
  split.
  - intros Hlisted. apply select_reviews_In in Hlisted. now apply Hgone.
  - intros r Hr Hbk Hne. apply select_reviews_In. split; [now apply Hstay | exact Hbk].
Qed.

Lemma delete_by_author_witness :
  let '(st', db', shown) :=
    @BookDetails.deleteReview Sample.platform "b1" "r2"
      (Sample.pageOf (Some "A"%string) "5" "" false) Sample.db in
  ~ In Sample.reviewByA (Store.reviews db') /\
  In Sample.reviewByB (BookDetails.reviews st').
Proof.
  pose proof (@delete_by_author Sample.platform "b1"
                (Sample.pageOf (Some "A"%string) "5" "" false) Sample.db
                Sample.reviewByA eq_refl (or_intror (or_introl eq_refl))) as H.
  cbv beta iota zeta in H.
  destruct (@BookDetails.deleteReview Sample.platform "b1"
              (Review.id Sample.reviewByA)
              (Sample.pageOf (Some "A"%string) "5" "" false) Sample.db)
    as [[st' db'] shown] eqn:E.
  change (Review.id Sample.reviewByA) with "r2"%string in E. rewrite E.
  destruct H as [Hgone [_ [_ [_ Hpage]]]].
  split; [exact Hgone|].
  apply Hpage.
  - vm_compute. discriminate.
  - left. reflexivity.
  - reflexivity.
  - vm_compute. discriminate.
Defined.

Lemma handleSubmitReview_rating (id : string) (st : BookDetails.State) :
  BookDetails.rating (BookDetails.state (BookDetails.handleSubmitReview id st)) =
  BookDetails.rating st.
Proof.
  unfold BookDetails.handleSubmitReview.
  destruct (BookDetails.user st); [|reflexivity].
  destruct (BookDetails.reviewSchema_parse _ _); reflexivity.
Qed.

Lemma draftRating_five (st : BookDetails.State) :
  BookDetails.rating st = "5"%string -> Spec.draftRating st.
Proof.
  intros H. exists 5. rewrite H. split; [reflexivity|].
  unfold Spec.validRating. lia.
Qed.

(** X15. Through the page's controls the draft's rating is always one the
    store accepts: each event of the page keeps it a numeral from 1 to 5,
    the listed reviews carrying the store's ratings; and with such a rating
    the only validation errors the form can show are about the text. *)
Theorem draft_rating_stays_valid (id : string) :
  (forall s s',
     BookDetails.ui_step id s s' ->
     Forall (fun r => Spec.validRating (Review.rating r))
            (BookDetails.reviews (BookDetails.page s)) ->
     Spec.draftRating (BookDetails.page s) ->
     Spec.draftRating (BookDetails.page s')) /\
  (forall st issue,
     Spec.draftRating st ->
     In (BookDetails.ShowToast (BookDetails.Toast_ValidationError issue))
        (BookDetails.effects (BookDetails.handleSubmitReview id st)) ->
     issue = BookDetails.reviewText_too_small \/
     issue = BookDetails.reviewText_too_big).
Proof.
  split.
  - intros s s' Hstep Hvalid Hdraft.
    destruct Hstep;
      cbn [BookDetails.page BookDetails.dispatch BookDetails.state
           BookDetails.handleDeleteReview];
      try exact Hdraft.
    + unfold Spec.draftRating. cbn [BookDetails.setRating BookDetails.rating].
      unfold Spec.validRating.
      destruct H1 as [<- | [<- | [<- | [<- | [<- | []]]]]];
        eexists; (split; [vm_compute; reflexivity | lia]).
    + unfold Spec.draftRating. now rewrite handleSubmitReview_rating.
    + now apply draftRating_five.
    + unfold Spec.draftRating.
      cbn [BookDetails.handleEditReview BookDetails.state
           BookDetails.setReviewText BookDetails.setRating BookDetails.rating].
      exists (Review.rating review). split; [apply parseInt_toString|].
      rewrite Forall_forall in Hvalid. now apply Hvalid.
    + unfold BookDetails.handleDeleteBook. destruct confirmed; exact Hdraft.
    + destruct call, res; cbn; try exact Hdraft; now apply draftRating_five.
    + destruct fetched as [[bookData [reviewsData|]]|]; exact Hdraft.
  - intros st issue [n [Hparse Hn]] Hshown.
    unfold BookDetails.handleSubmitReview in Hshown.
    destruct (BookDetails.user st) as [u|].
    + cbn [BookDetails.rating BookDetails.reviewText
           BookDetails.setIsSubmitting] in Hshown.
      rewrite Hparse in Hshown.
      unfold BookDetails.reviewSchema_parse, BookDetails.rating_issues,
        BookDetails.reviewText_issues in Hshown.
      unfold Spec.validRating in Hn.
      destruct (Z.ltb_spec n 1); [lia|]. destruct (Z.ltb_spec 5 n); [lia|].
      cbn [app] in Hshown.
      destruct (String.length (JS.trim (BookDetails.reviewText st)) <? 10)%nat,
        (1000 <? String.length (JS.trim (BookDetails.reviewText st)))%nat;
        cbn in Hshown; try contradiction;
        destruct Hshown as [Hs | Hs];
        try contradiction; try discriminate Hs;
        injection Hs as <-; auto.
    + cbn in Hshown. destruct Hshown as [Hs | [Hs | []]]; discriminate Hs.
Qed.

Lemma draft_rating_stays_valid_witness :
  Spec.draftRating
    (BookDetails.page
       (BookDetails.dispatch
          (BookDetails.handleEditReview Sample.reviewByA
             (Sample.pageOf (Some "A"%string) "3" "" false))
          (BookDetails.initial (Sample.pageOf (Some "A"%string) "3" "" false)))).
Proof.
  apply (proj1 (draft_rating_stays_valid "b1")
           (BookDetails.initial (Sample.pageOf (Some "A"%string) "3" "" false))).
  - apply (BookDetails.ev_clickEdit "b1"
             (BookDetails.initial (Sample.pageOf (Some "A"%string) "3" "" false))
             Sample.reviewByA).
    + reflexivity.
    + left. reflexivity.
    + reflexivity.
  - repeat constructor; unfold Spec.validRating; simpl; lia.
  - exists 3. split; [reflexivity | unfold Spec.validRating; lia].
Defined.

(** ** The store's policies *)

(** X16. Deleting never leaves a review without its book: if every review
    references a stored book, this still holds after any delete of a book
    (whose reviews go with it) and after any delete of a review, whoever
    the caller is. *)
Theorem deletes_keep_integrity (auth_uid : option string) (target : string)
    (db : Store.DB) :
  Spec.integrity db ->
  Spec.integrity (fst (Store.delete_book auth_uid target db)) /\
  Spec.integrity (fst (Store.delete_review auth_uid target db)).
Proof.
  intros Hint. split.
  - intros r Hr. unfold Store.delete_book in *. cbn [fst Store.reviews Store.books] in *.
    apply filter_In in Hr. destruct Hr as [Hr Hkeep].
    destruct (Hint r Hr) as [b [Hb Hid]]. exists b. split; [|exact Hid].
    apply filter_In. split; [exact Hb|].
    apply negb_true_iff in Hkeep. apply negb_true_iff.
    destruct ((String.eqb (id b) target && Store.delete_book_policy auth_uid b)%bool)
      eqn:Hdel; [|reflexivity].
    exfalso. apply not_true_iff_false in Hkeep. apply Hkeep.
    apply existsb_exists. exists b. split; [exact Hb|].
    rewrite Hdel, <- Hid. cbn [andb]. apply String.eqb_refl.
  - intros r Hr. unfold Store.delete_review in *. cbn [fst Store.reviews Store.books] in *.
    apply filter_In in Hr. destruct Hr as [Hr _]. now apply Hint.
Qed.

(** Viewer A deletes the book A added, whose review goes with it, and a
    review A wrote. *)
Lemma deletes_keep_integrity_witness :
  Spec.integrity (fst (Store.delete_book (Some "A"%string) "b4" Sample.ownedDb)) /\
  Store.reviews (fst (Store.delete_book (Some "A"%string) "b4" Sample.ownedDb)) =
    [Sample.reviewByB] /\
  Spec.integrity (fst (Store.delete_review (Some "A"%string) "r2" Sample.db)).
Proof.
  assert (Howned : Spec.integrity Sample.ownedDb).
  { intros r [<- | [<- | []]];
      [exists Sample.dune | exists Sample.educated]; split;
      try (left; reflexivity); try (right; left; reflexivity); reflexivity. }
  assert (Hint : Spec.integrity Sample.db).
  { intros r [<- | [<- | []]]; exists Sample.dune; split;
      try (left; reflexivity); reflexivity. }
  split; [|split].
  - apply (proj1 (deletes_keep_integrity (Some "A"%string) "b4" Sample.ownedDb
                    Howned)).
  - reflexivity.
  - apply (proj2 (deletes_keep_integrity (Some "A"%string) "r2" Sample.db Hint)).
Defined.

(** X17. A seeded book (no owner) can be changed by nobody: for every
    viewer the book page offers no edit or delete control for it, the edit
    form refuses to load it, and the store's delete leaves it in place. *)
Theorem seeded_book_is_read_only (b : Book) :
  added_by b = None ->
  (forall st, BookDetails.book st = Some b ->
              BookDetails.bookControlsShown st = false) /\
  (forall form,
     AddBook.fetchBook_resume (Some b) form =
     (AddBook.setIsLoadingBook false form,
      [AddBook.ShowToast AddBook.Toast_AccessDenied; AddBook.Navigate "/"])) /\
  (forall auth_uid target db,
     In b (Store.books db) ->
     In b (Store.books (fst (Store.delete_book auth_uid target db)))).
Proof.
  intros Hseed. split; [|split].
  - intros st Hbook. unfold BookDetails.bookControlsShown.
    rewrite Hbook, Hseed. now destruct (BookDetails.user st).
  - intros form. destruct b as [i t a d g y owner c u]. cbn in Hseed. subst owner.
    reflexivity.
  - intros auth_uid target db Hin. unfold Store.delete_book. cbn [fst Store.books].
    apply filter_In. split; [exact Hin|].
    unfold Store.delete_book_policy. rewrite Hseed.
    destruct auth_uid; now rewrite andb_false_r.
Qed.

Lemma seeded_book_is_read_only_witness :
  In Sample.dune (Store.books (fst (Store.delete_book (Some "A"%string) "b1" Sample.db))).
Proof.
  apply (proj2 (proj2 (seeded_book_is_read_only Sample.dune eq_refl))).
  left. reflexivity.
Defined.

Lemma unique_id_eq (books : list Book) (a b : Book) :
  NoDup (map id books) -> In a books -> In b books -> id a = id b -> a = b.
Proof.
  induction books as [|x l IH]; intros Hnd Ha Hb Hid; [contradiction|].
  cbn [map] in Hnd. inversion Hnd as [|? ? Hnotin Hnd']; subst.
  destruct Ha as [-> | Ha], Hb as [-> | Hb]; try reflexivity.
  - exfalso. apply Hnotin. rewrite Hid. now apply in_map.
  - exfalso. apply Hnotin. rewrite <- Hid. now apply in_map.
  - now apply IH.
Qed.

(** X18. Deleting a book takes its card, and only its card, off the
    catalog: when the owner deletes a stored book (identities being unique),
    what [fetchBooks] computes afterwards is what it computed before
    without the records of that book, every other record being the same,
    aggregates included. *)
Theorem delete_book_updates_catalog {P : Platform} (auth_uid : option string)
    (db : Store.DB) (b : Book) :
  Spec.uniqueBookIds db ->
  In b (Store.books db) ->
  Store.delete_book_policy auth_uid b = true ->
  forall w : BookWithRatings,
    In w (Spec.fetchBooks (fst (Store.delete_book auth_uid (id b) db))) <->
    In w (Spec.fetchBooks db) /\ id w <> id b.
Proof.
  intros Hunique Hb Hpolicy w.
  set (deleted := fun b0 : Book =>
         (String.eqb (id b0) (id b) && Store.delete_book_policy auth_uid b0)%bool).
  assert (Hdeleted : forall b0, In b0 (Store.books db) ->
                                (deleted b0 = true <-> id b0 = id b)).
  { intros b0 Hb0. unfold deleted. rewrite andb_true_iff, String.eqb_eq. split.
    - now intros [E _].
    - intros E. split; [exact E|].
      now rewrite (unique_id_eq _ b0 b Hunique Hb0 Hb E). }
  assert (Hratings : forall b0, id b0 <> id b ->
            Aggregation.bookReviews
              (Store.select_ratings (fst (Store.delete_book auth_uid (id b) db))) b0 =
            Aggregation.bookReviews (Store.select_ratings db) b0).
  { intros b0 Hne. unfold Aggregation.bookReviews, Store.select_ratings,
      Store.delete_book. cbn [fst Store.reviews].
    rewrite !filter_map_comm, filter_filter_and. f_equal.
    apply filter_ext_in. intros r Hr. cbn [book_id].
    destruct (String.eqb_spec (Review.book_id r) (id b0)) as [E | E];
      [|apply andb_false_r].
    rewrite andb_true_r. apply negb_true_iff, not_true_iff_false.
    intros Hex. apply existsb_exists in Hex. destruct Hex as [b1 [Hb1 Hdel]].
    apply andb_true_iff in Hdel. destruct Hdel as [Hdel Hsame].
    apply String.eqb_eq in Hsame.
    apply (Hdeleted b1 Hb1) in Hdel. congruence. }
  unfold Spec.fetchBooks, Aggregation.booksWithRatings.
  rewrite !in_map_iff. split.
  - intros [b0 [<- Hb0]]. unfold Store.select_books in Hb0.
    apply sort_In in Hb0. unfold Store.delete_book in Hb0.
    cbn [fst Store.books] in Hb0. apply filter_In in Hb0.
    destruct Hb0 as [Hb0 Hkept]. apply negb_true_iff in Hkept.
    assert (Hne : id b0 <> id b).
    { intros E. apply (Hdeleted b0 Hb0) in E. unfold deleted in E. congruence. }
    split; [|exact Hne].
    exists b0. split.
    + cbn zeta. now rewrite (Hratings b0 Hne).
    + unfold Store.select_books. now apply sort_In.
  - intros [[b0 [<- Hb0]] Hne]. cbn [book] in Hne.
    exists b0. split.
    + cbn zeta. now rewrite (Hratings b0 Hne).
    + unfold Store.select_books in *. apply sort_In. apply sort_In in Hb0.
      unfold Store.delete_book. cbn [fst Store.books]. apply filter_In.
      split; [exact Hb0|]. apply negb_true_iff, not_true_iff_false.
      intros Hdel. apply (Hdeleted b0 Hb0) in Hdel. contradiction.
Qed.

Lemma delete_book_updates_catalog_witness :
  In {| book := Sample.dune; averageRating := (4 # 1)%Q; reviewCount := 1 |}
     (@Spec.fetchBooks Sample.platform
        (fst (Store.delete_book (Some "A"%string) "b4" Sample.ownedDb))).
Proof.
  apply (proj2 (@delete_book_updates_catalog Sample.platform (Some "A"%string)
                  Sample.ownedDb Sample.educated
                  ltac:(repeat constructor; simpl; intuition discriminate)
                  (or_intror (or_introl eq_refl)) eq_refl
                  {| book := Sample.dune; averageRating := (4 # 1)%Q;
                     reviewCount := 1 |})).
  split.
  - vm_compute. right. left. reflexivity.
  - discriminate.
Defined.

Lemma unique_review_split (reviews before after : list Review.t)
    (review : Review.t) (auth_uid : option string) :
  NoDup (map Review.id reviews) ->
  reviews = before ++ review :: after ->
  Store.delete_policy auth_uid review = true ->
  filter (fun r => negb (String.eqb (Review.id r) (Review.id review) &&
                         Store.delete_policy auth_uid r))
         reviews = before ++ after.
Proof.
  intros Hnd -> Hpolicy.
  rewrite map_app in Hnd. cbn [map] in Hnd.
  pose proof (NoDup_remove_2 _ _ _ Hnd) as Hnotin.
  assert (Hother : forall r, In r (before ++ after) ->
                             Review.id r <> Review.id review).
  { intros r Hr E. apply Hnotin. rewrite <- E, <- map_app. now apply in_map. }
  rewrite filter_app. cbn [filter].
  rewrite String.eqb_refl, Hpolicy. cbn [andb negb].
  rewrite <- filter_app. apply forallb_filter_id, forallb_forall.
  intros r Hr. apply Hother, String.eqb_neq in Hr. now rewrite Hr.
Qed.

(** X19. Deleting a review changes one aggregate only: when its author
    deletes a stored review (identities being unique), the books are as
    before; the ratings aggregated for the review's book are those from
    before less that one rating; and for every other book they are the
    same. *)
Theorem delete_review_updates_one_aggregate (db : Store.DB) (review : Review.t) :
  Spec.uniqueReviewIds db ->
  In review (Store.reviews db) ->
  let db' := fst (Store.delete_review (Some (Review.user_id review))
                                      (Review.id review) db) in
  Store.books db' = Store.books db /\
  (forall b,
     id b <> Review.book_id review ->
     Aggregation.bookReviews (Store.select_ratings db') b =
     Aggregation.bookReviews (Store.select_ratings db) b) /\
  (forall b,
     id b = Review.book_id review ->
     Permutation
       (Aggregation.bookReviews (Store.select_ratings db) b)
       (mkReviewRating (Review.book_id review) (Review.rating review) ::
        Aggregation.bookReviews (Store.select_ratings db') b) /\
     List.length (Aggregation.bookReviews (Store.select_ratings db) b) =
     S (List.length (Aggregation.bookReviews (Store.select_ratings db') b))).
Proof.
  intros Hunique Hin db'.
  destruct (in_split _ _ Hin) as [before [after Hsplit]].
  assert (Hdb' : Store.reviews db' = before ++ after).
  { unfold db', Store.delete_review. cbn [fst Store.reviews].
    apply (unique_review_split _ before after review _ Hunique Hsplit).
    cbn [Store.delete_policy]. apply String.eqb_refl. }
  split; [reflexivity|].
  unfold Aggregation.bookReviews, Store.select_ratings.
  rewrite Hdb', Hsplit, !map_app. cbn [map]. split.
  - intros b Hne. rewrite !filter_app. cbn [filter book_id].
    apply not_eq_sym, String.eqb_neq in Hne. now rewrite Hne.
  - intros b E.
    assert (Hperm :
      Permutation
        (filter (fun r => String.eqb (book_id r) (id b))
           (map (fun r => mkReviewRating (Review.book_id r) (Review.rating r)) before ++
            mkReviewRating (Review.book_id review) (Review.rating review) ::
            map (fun r => mkReviewRating (Review.book_id r) (Review.rating r)) after))
        (mkReviewRating (Review.book_id review) (Review.rating review) ::
         filter (fun r => String.eqb (book_id r) (id b))
           (map (fun r => mkReviewRating (Review.book_id r) (Review.rating r)) before ++
            map (fun r => mkReviewRating (Review.book_id r) (Review.rating r)) after))).
    { rewrite !filter_app. cbn [filter book_id].
      rewrite E, String.eqb_refl. symmetry. apply Permutation_middle. }
    split; [exact Hperm|]. apply (Permutation_length Hperm).
Qed.

Lemma delete_review_updates_one_aggregate_witness :
  List.length (Aggregation.bookReviews (Store.select_ratings Sample.db) Sample.dune) =
  S (List.length
       (Aggregation.bookReviews
          (Store.select_ratings
             (fst (Store.delete_review (Some "A"%string) "r2" Sample.db)))
          Sample.dune)).
Proof.
  apply (proj2 (proj2 (delete_review_updates_one_aggregate Sample.db
                         Sample.reviewByA
                         ltac:(repeat constructor; simpl; intuition discriminate)
                         (or_intror (or_introl eq_refl))))
               Sample.dune eq_refl).
Defined.

(** ** The book form *)

Lemma string_issues_nil (too_small too_big : AddBook.ZodIssue) (min max : nat)
    (s : string) :
  AddBook.string_issues too_small too_big min max s = [] <->
  (min <= String.length (JS.trim s) <= max)%nat.
Proof.
  unfold AddBook.string_issues.
  destruct (Nat.ltb_spec (String.length (JS.trim s)) min),
    (Nat.ltb_spec max (String.length (JS.trim s)));
    simpl; split; try discriminate; try lia; reflexivity.
Qed.

Lemma publishedYear_issues_nil (currentYear : Z) (publishedYear : option Z) :
  AddBook.publishedYear_issues currentYear publishedYear = [] <->
  exists y, publishedYear = Some y /\ 1000 <= y <= currentYear + 1.
Proof.
  unfold AddBook.publishedYear_issues. destruct publishedYear as [y|].
  - destruct (Z.ltb_spec y 1000), (Z.ltb_spec (currentYear + 1) y); simpl; split;
      try discriminate; try (intros [z [Hz Hb]]; injection Hz as <-; lia).
    + intros _. exists y. split; [reflexivity | lia].
    + reflexivity.
  - split; [discriminate | intros [y [H _]]; discriminate].
Qed.

Lemma bookSchema_parse_ok (currentYear : Z) (t a d g : string)
    (publishedYear : option Z) (v : AddBook.Validated) :
  AddBook.bookSchema_parse currentYear t a d g publishedYear = inl v <->
  exists y,
    publishedYear = Some y /\
    Spec.validBook currentYear (JS.trim t) (JS.trim a) (JS.trim d) (JS.trim g) y /\
    v = AddBook.mkValidated (JS.trim t) (JS.trim a) (JS.trim d) (JS.trim g) y.
Proof.
  unfold AddBook.bookSchema_parse, Spec.validBook.
  pose proof (string_issues_nil AddBook.title_too_small AddBook.title_too_big
                1 200 t) as Ht.
  pose proof (string_issues_nil AddBook.author_too_small AddBook.author_too_big
                1 100 a) as Ha.
  pose proof (string_issues_nil AddBook.description_too_small
                AddBook.description_too_big 10 2000 d) as Hd.
  pose proof (string_issues_nil AddBook.genre_too_small AddBook.genre_too_big
                1 50 g) as Hg.
  pose proof (publishedYear_issues_nil currentYear publishedYear) as Hy.
  destruct (AddBook.issues currentYear t a d g publishedYear) as [|i rest] eqn:E.
  - unfold AddBook.issues in E.
    apply app_eq_nil in E. destruct E as [Et E].
    apply app_eq_nil in E. destruct E as [Ea E].
    apply app_eq_nil in E. destruct E as [Ed E].
    apply app_eq_nil in E. destruct E as [Eg Ey].
    apply Ht in Et. apply Ha in Ea. apply Hd in Ed. apply Hg in Eg.
    apply Hy in Ey. destruct Ey as [y [-> Hyear]]. split.
    + intros H. injection H as <-. exists y. repeat split; lia.
    + intros [z [Hz [_ ->]]]. injection Hz as <-. reflexivity.
  - split; [discriminate|].
    intros [y [-> [[Hbt [Hba [Hbd [Hbg Hby]]]] _]]]. exfalso.
    unfold AddBook.issues in E.
    rewrite (proj2 Ht Hbt), (proj2 Ha Hba), (proj2 Hd Hbd), (proj2 Hg Hbg) in E.
    cbn [app] in E.
    assert (Hnil : AddBook.publishedYear_issues currentYear (Some y) = [])
      by (apply publishedYear_issues_nil; now exists y).
    rewrite Hnil in E. discriminate.
Qed.

(** X20. The book form sends a book exactly when a viewer is signed in and
    the trimmed title, author, description and genre have lengths within
    1..200, 1..100, 10..2000 and 1..50 and the year reads as a number from
    1000 to next year.  What it sends are the trimmed texts and that year;
    a create carries the viewer's identity as owner and so passes the
    insert policy, an update addresses the book of the route.  Otherwise
    nothing is sent, and the fields of the form stay as typed. *)
Theorem book_form_submit (id : option string) (currentYear : Z)
    (st : AddBook.State) :
  let accepted :=
    exists user_id y,
      AddBook.user st = Some user_id /\
      JS.parseInt (AddBook.publishedYear st) = Some y /\
      Spec.validBook currentYear (JS.trim (AddBook.title st))
        (JS.trim (AddBook.author st)) (JS.trim (AddBook.description st))
        (JS.trim (AddBook.genre st)) y in
  let o := AddBook.handleSubmit id currentYear st in
  (forall call, AddBook.awaits o = Some call ->
     accepted /\
     exists user_id y,
       AddBook.user st = Some user_id /\
       JS.parseInt (AddBook.publishedYear st) = Some y /\
       (call = AddBook.InsertBook (JS.trim (AddBook.title st))
                 (JS.trim (AddBook.author st)) (JS.trim (AddBook.description st))
                 (JS.trim (AddBook.genre st)) y user_id /\
        Store.insert_book_policy (AddBook.user st) (Some user_id) = true \/
        exists bookId,
          id = Some bookId /\
          call = AddBook.UpdateBook bookId (JS.trim (AddBook.title st))
                   (JS.trim (AddBook.author st)) (JS.trim (AddBook.description st))
                   (JS.trim (AddBook.genre st)) y)) /\
  (accepted -> AddBook.awaits o <> None) /\
  (AddBook.awaits o = None ->
   AddBook.isLoading st = false -> AddBook.state o = st).
Proof.
  intros accepted o. subst accepted o. unfold AddBook.handleSubmit.
  destruct st as [u t a d g y loading loadingBook].
  cbn [AddBook.user AddBook.title AddBook.author AddBook.description
       AddBook.genre AddBook.publishedYear AddBook.setIsLoading
       AddBook.isLoading AddBook.isLoadingBook].
  destruct u as [u|].
  - destruct (AddBook.bookSchema_parse currentYear t a d g (JS.parseInt y))
      as [v | e] eqn:Ev.
    + pose proof (proj1 (bookSchema_parse_ok _ _ _ _ _ _ _) Ev)
        as [z [Hz [Hvalid ->]]].
      cbn [AddBook.awaits AddBook.validated_title AddBook.validated_author
           AddBook.validated_description AddBook.validated_genre
           AddBook.validated_publishedYear].
      split; [|split].
      * intros call Hcall. injection Hcall as <-. split.
        -- exists u, z. split; [reflexivity | split; [exact Hz | exact Hvalid]].
        -- exists u, z. split; [reflexivity|]. split; [exact Hz|].
           destruct id as [bookId|]; [destruct (JS.truthy bookId)|].
           ++ right. now exists bookId.
           ++ left. split; [reflexivity|].
              cbn [Store.insert_book_policy]. apply String.eqb_refl.
           ++ left. split; [reflexivity|].
              cbn [Store.insert_book_policy]. apply String.eqb_refl.
      * intros _. discriminate.
      * discriminate.
    + cbn [AddBook.awaits AddBook.state]. split; [|split].
      * discriminate.
      * intros [u' [z [_ [Hz Hvalid]]]]. exfalso.
        assert (Hok : AddBook.bookSchema_parse currentYear t a d g (JS.parseInt y) =
                      inl (AddBook.mkValidated (JS.trim t) (JS.trim a) (JS.trim d)
                             (JS.trim g) z))
          by (apply bookSchema_parse_ok; now exists z).
        congruence.
      * intros _ ->. reflexivity.
  - cbn [AddBook.awaits AddBook.state]. split; [|split].
    + discriminate.
    + intros [u' [z [Hu _]]]. discriminate.
    + reflexivity.
Qed.

(** Viewer A adds a book in 2025, typing spaces around the title. *)
Lemma book_form_submit_witness :
  AddBook.awaits
    (AddBook.handleSubmit None 2025
       (Sample.formOf (Some "A"%string) "  Educated " "Tara Westover"
          "A memoir of a young woman who leaves her family." "Memoir" "2018"))
  <> None /\
  AddBook.state
    (AddBook.handleSubmit None 2025
       (Sample.formOf (Some "A"%string) "Educated" "Tara Westover"
          "Too short" "Memoir" "2018")) =
  Sample.formOf (Some "A"%string) "Educated" "Tara Westover" "Too short"
                "Memoir" "2018".
Proof.
  split.
  - apply (proj1 (proj2 (book_form_submit None 2025
             (Sample.formOf (Some "A"%string) "  Educated " "Tara Westover"
                "A memoir of a young woman who leaves her family." "Memoir"
                "2018")))).
    exists "A"%string, 2018. split; [reflexivity|]. split; [reflexivity|].
    unfold Spec.validBook.
    repeat match goal with
           | |- context [String.length ?s] =>
               let n := eval vm_compute in (String.length s) in
               change (String.length s) with n
           end.
    lia.
  - apply (proj2 (proj2 (book_form_submit None 2025
             (Sample.formOf (Some "A"%string) "Educated" "Tara Westover"
                "Too short" "Memoir" "2018")))); reflexivity.
Defined.

(** X21. The edit form opens for exactly the books whose edit button the
    book page shows: for one viewer and one book, the button is rendered if
    and only if [fetchBook] fills the form, and otherwise [fetchBook]
    answers "Access Denied" and leaves. *)
Theorem edit_access_matches_button (page : BookDetails.State)
    (form : AddBook.State) (b : Book) :
  BookDetails.book page = Some b ->
  BookDetails.user page = AddBook.user form ->
  (BookDetails.bookControlsShown page = true <->
   snd (AddBook.fetchBook_resume (Some b) form) = []) /\
  (BookDetails.bookControlsShown page = false <->
   AddBook.fetchBook_resume (Some b) form =
   (AddBook.setIsLoadingBook false form,
    [AddBook.ShowToast AddBook.Toast_AccessDenied; AddBook.Navigate "/"])).
Proof.
  intros Hbook Huser. unfold BookDetails.bookControlsShown.
  rewrite Hbook, Huser. destruct b as [i t a d g y owner c u].
  cbn [added_by AddBook.fetchBook_resume]. unfold AddBook.ownedBy.
  destruct (AddBook.user form) as [viewer|], owner as [owner|];
    cbn [negb]; try (split; split; [discriminate | discriminate | reflexivity | reflexivity]).
  rewrite (String.eqb_sym owner viewer).
  destruct (String.eqb viewer owner); cbn [negb snd];
    split; split; try reflexivity; try discriminate.
Qed.

Lemma edit_access_matches_button_witness :
  BookDetails.bookControlsShown
    (BookDetails.mkState (Some "A"%string) (Some Sample.educated) [] "5" "" None
                         false false) = true <->
  snd (AddBook.fetchBook_resume (Some Sample.educated)
         (Sample.formOf (Some "A"%string) "" "" "" "" "")) = [].
Proof.
  apply (proj1 (edit_access_matches_button
                  (BookDetails.mkState (Some "A"%string) (Some Sample.educated)
                     [] "5" "" None false false)
                  (Sample.formOf (Some "A"%string) "" "" "" "" "")
                  Sample.educated eq_refl eq_refl)).
Defined.

(** X22. Opening a stored book in the edit form and saving it unchanged
    sends the book back as it is stored: for the owner and a book whose
    texts are within the form's bounds without white space at their ends
    and whose year is from 1000 to next year, [fetchBook] followed by
    [handleSubmit] issues the update of that book with the same title,
    author, description, genre and year. *)
Theorem edit_book_round_trip (currentYear : Z) (form : AddBook.State)
    (b : Book) (user_id : string) :
  AddBook.user form = Some user_id ->
  added_by b = Some user_id ->
  JS.truthy (id b) = true ->
  Spec.validBook currentYear (title b) (author b) (description b) (genre b)
                 (published_year b) ->
  Spec.noEdgeSpace (title b) -> Spec.noEdgeSpace (author b) ->
  Spec.noEdgeSpace (description b) -> Spec.noEdgeSpace (genre b) ->
  AddBook.awaits
    (AddBook.handleSubmit (Some (id b)) currentYear
       (fst (AddBook.fetchBook_resume (Some b) form))) =
  Some (AddBook.UpdateBook (id b) (title b) (author b) (description b)
                           (genre b) (published_year b)).
Proof.
  intros Huser Howner Hid Hvalid Ht Ha Hd Hg.
  destruct b as [i t a d g y owner c u].
  cbn [id title author description genre published_year added_by] in *.
  subst owner. cbn [AddBook.fetchBook_resume]. unfold AddBook.ownedBy.
  rewrite Huser, String.eqb_refl. cbn [negb fst].
  unfold AddBook.handleSubmit.
  cbn [AddBook.user AddBook.setIsLoadingBook AddBook.setFields
       AddBook.setIsLoading AddBook.title AddBook.author AddBook.description
       AddBook.genre AddBook.publishedYear].
  rewrite Huser, parseInt_toString.
  assert (Hok : AddBook.bookSchema_parse currentYear t a d g (Some y) =
                inl (AddBook.mkValidated (JS.trim t) (JS.trim a) (JS.trim d)
                       (JS.trim g) y)).
  { apply bookSchema_parse_ok. exists y. split; [reflexivity|].
    rewrite (trim_id t Ht), (trim_id a Ha), (trim_id d Hd), (trim_id g Hg).
    split; [exact Hvalid | reflexivity]. }
  rewrite Hok, Hid.
  cbn [AddBook.awaits AddBook.validated_title AddBook.validated_author
       AddBook.validated_description AddBook.validated_genre
       AddBook.validated_publishedYear].
  now rewrite (trim_id t Ht), (trim_id a Ha), (trim_id d Hd), (trim_id g Hg).
Qed.

Lemma edit_book_round_trip_witness :
  AddBook.awaits
    (AddBook.handleSubmit (Some "b4"%string) 2025
       (fst (AddBook.fetchBook_resume (Some Sample.educated)
               (Sample.formOf (Some "A"%string) "" "" "" "" "")))) =
  Some (AddBook.UpdateBook "b4" "Educated" "Tara Westover"
          "A memoir of a young woman who leaves her family." "Memoir" 2018).
Proof.
  apply (edit_book_round_trip 2025
           (Sample.formOf (Some "A"%string) "" "" "" "" "")
           Sample.educated "A"%string);
    try reflexivity;
    try (split; intros c Hc; vm_compute in Hc; injection Hc as <-; reflexivity).
  unfold Spec.validBook.
  repeat match goal with
         | |- context [String.length ?s] =>
             let n := eval vm_compute in (String.length s) in
             change (String.length s) with n
         end.
  cbn [published_year Sample.educated]. lia.
Defined.

(** The sample catalog offers its genres in the order of the books,
    "Science Fiction" once. *)
Lemma genres_first_seen_witness :
  NoDup (Index.genres (Sample.view "" "all" "recent" 1)) /\
  Index.genres (Sample.view "" "all" "recent" 1) =
    ["Science Fiction"; "Fiction"]%string.
Proof.
  split.
  - apply (proj1 (genres_first_seen (Sample.view "" "all" "recent" 1))).
  - reflexivity.
Defined.
